(** * gdb-colour-filter: the frame colouriser of [colour_filter.py]

    A shallow embedding of the Python 2 frame filter and the properties of
    its line layout, escape-aware length measurement, symbol-name recovery,
    argument rendering and one-shot stack printing. *)

From Stdlib Require Import String Ascii ZArith List Lia Bool.
From Stdlib Require DecimalString HexadecimalString.
Import ListNotations.

Local Open Scope string_scope.
Local Open Scope Z_scope.

(** ** Outcomes of a Python call *)

(** The exception classes that occur in the program.  [GdbError] stands for
    [gdb.error], which gdb derives from [RuntimeError]. *)
Inductive exn : Type :=
| RuntimeError
| GdbError
| ValueError
| NameError
| StopIteration.

(** A call returns a value or raises.  [Diverged] is the answer of a loop
    model whose fuel ran out; the theorems below show that [length] never
    gives it. *)
Inductive outcome (A : Type) : Type :=
| Returned (a : A)
| Raised (e : exn)
| Diverged.

Arguments Returned {A} a.
Arguments Raised {A} e.
Arguments Diverged {A}.

Definition bind {A B : Type} (c : outcome A) (k : A -> outcome B) : outcome B :=
  match c with
  | Returned a => k a
  | Raised e => Raised e
  | Diverged => Diverged
  end.

Notation "x <- c ;; k" := (bind c (fun x => k))
  (at level 61, c at next level, right associativity).

(** [isinstance(e, RuntimeError)], as an [except RuntimeError] clause tests it. *)
Definition is_RuntimeError (e : exn) : bool :=
  match e with
  | RuntimeError | GdbError => true
  | _ => false
  end.

(** The two control characters of the program: [\033] and the line feed. *)
Definition ESC : ascii := ascii_of_nat 27.
Definition LF : ascii := ascii_of_nat 10.
Definition NL : string := String LF "".

(** ** The Python built-ins the program calls, on byte strings *)
Module Py.

Definition len (s : string) : Z := Z.of_nat (String.length s).

(** [s.startswith(sub)] *)
Fixpoint startswith (s sub : string) : bool :=
  match sub, s with
  | EmptyString, _ => true
  | String _ _, EmptyString => false
  | String b sub', String a s' => Ascii.eqb a b && startswith s' sub'
  end.

(** The lowest index [i >= skip] at which [sub] occurs in [s]. *)
Fixpoint search (s sub : string) (skip : nat) : option nat :=
  match skip, s with
  | S k, String _ s' => option_map S (search s' sub k)
  | S _, EmptyString => None
  | O, String _ s' =>
      if startswith s sub then Some O else option_map S (search s' sub O)
  | O, EmptyString => if startswith s sub then Some O else None
  end.

(** [s.find(sub, start)]: a negative [start] counts from the end, and the
    answer is [-1] when there is no occurrence. *)
Definition find (s sub : string) (start : Z) : Z :=
  let start := if start <? 0 then Z.max 0 (start + len s) else start in
  match search s sub (Z.to_nat start) with
  | Some i => Z.of_nat i
  | None => -1
  end.

(** [s[:stop]]: a negative [stop] counts from the end. *)
Definition slice_to (s : string) (stop : Z) : string :=
  let stop := if stop <? 0 then Z.max 0 (stop + len s) else Z.min stop (len s) in
  substring 0 (Z.to_nat stop) s.

(** [c.isspace()] for a byte: blank, [\t], [\n], [\v], [\f], [\r]. *)
Definition isspace (c : ascii) : bool :=
  let n := nat_of_ascii c in
  (Nat.eqb n 32 || (Nat.leb 9 n && Nat.leb n 13))%bool.

Fixpoint lstrip (s : string) : string :=
  match s with
  | String c s' => if isspace c then lstrip s' else s
  | EmptyString => EmptyString
  end.

Fixpoint rstrip (s : string) : string :=
  match s with
  | String c s' =>
      match rstrip s' with
      | EmptyString => if isspace c then EmptyString else String c EmptyString
      | r => String c r
      end
  | EmptyString => EmptyString
  end.

(** [s.strip()] *)
Definition strip (s : string) : string := rstrip (lstrip s).

(** The text before and after the last occurrence of the byte [sep]. *)
Fixpoint rpartition (s : string) (sep : ascii) : option (string * string) :=
  match s with
  | EmptyString => None
  | String c s' =>
      match rpartition s' sep with
      | Some (before, after) => Some (String c before, after)
      | None => if Ascii.eqb c sep then Some (EmptyString, s') else None
      end
  end.

(** [s.rsplit(sep, 1)] for a one-byte separator. *)
Definition rsplit1 (s : string) (sep : ascii) : list string :=
  match rpartition s sep with
  | Some (before, after) => [before; after]
  | None => [s]
  end.

(** [sep.join(items)] *)
Fixpoint join (sep : string) (items : list string) : string :=
  match items with
  | [] => EmptyString
  | [x] => x
  | x :: rest => x ++ sep ++ join sep rest
  end.

(** [s * n]: empty when [n <= 0]. *)
Definition repeat (s : string) (n : Z) : string :=
  String.concat EmptyString (List.repeat s (Z.to_nat n)).

(** [int(b)] of a boolean. *)
Definition int_of_bool (b : bool) : Z := if b then 1 else 0.

Definition dec_digits (n : Z) : string :=
  DecimalString.NilZero.string_of_uint (N.to_uint (Z.to_N n)).

Definition hex_digits (n : Z) : string :=
  HexadecimalString.NilZero.string_of_uint (N.to_hex_uint (Z.to_N n)).

(** ['%d' % n] *)
Definition fmt_d (n : Z) : string :=
  if n <? 0 then "-" ++ dec_digits (- n) else dec_digits n.

(** ['%-3d' % n]: left-justified in three columns. *)
Definition fmt_ljust3_d (n : Z) : string :=
  let d := fmt_d n in d ++ repeat " " (3 - len d).

(** ['%016x' % n]: zero-padded to sixteen columns, the sign included. *)
Definition fmt_016x (n : Z) : string :=
  let sign := if n <? 0 then "-" else "" in
  let d := hex_digits (Z.abs n) in
  sign ++ repeat "0" (16 - len sign - len d) ++ d.

(** ['%s' % x] where [x] is a string or [None]. *)
Definition fmt_s (x : option string) : string :=
  match x with
  | Some s => s
  | None => "None"
  end.

Definition is_digit (c : ascii) : bool :=
  let n := nat_of_ascii c in (Nat.leb 48 n && Nat.leb n 57)%bool.

(** The value of a run of decimal digits, [None] when a byte is no digit. *)
Fixpoint digits_value (s : string) (acc : Z) : option Z :=
  match s with
  | EmptyString => Some acc
  | String c s' =>
      if is_digit c
      then digits_value s' (10 * acc + Z.of_nat (nat_of_ascii c) - 48)
      else None
  end.

(** [int(s)] in base ten: blanks around an optionally signed, nonempty run
    of digits; on anything else [int] raises [ValueError], here [None]. *)
Definition int (s : string) : option Z :=
  let body := strip s in
  let '(neg, ds) :=
    match body with
    | String "-" r => (true, r)
    | String "+" r => (false, r)
    | _ => (false, body)
    end in
  match ds with
  | EmptyString => None
  | _ => option_map (fun v => if neg then - v else v) (digits_value ds 0)
  end.

(** [sys.maxint] of CPython 2 on an LP64 host: a larger magnitude makes
    [int] answer a [long], whose [hex] carries the suffix [L]. *)
Definition maxint : Z := 9223372036854775807.

(** [hex(n)] *)
Definition hex (n : Z) : string :=
  let body := if n <? 0 then "-0x" ++ hex_digits (- n) else "0x" ++ hex_digits n in
  if ((n <? - maxint - 1) || (maxint <? n))%bool then body ++ "L" else body.

End Py.

(** ** The host: what gdb answers

    The [gdb] package is not part of the repository.  Its answers are the
    data of the model: a frame carries what [gdb.Frame] and the base class
    [FrameDecorator] report for it. *)
Module gdb.

(** A [gdb.Symbol] of a block.  [value] is the text of
    [sym.value(frame)] for the decorated frame, or the exception that
    the evaluation raises. *)
Record Symbol : Type := {
  name : string;
  is_argument : bool;
  value : outcome string
}.

(** A [gdb.Block]: the function it belongs to ([None] for a nested
    scope), its symbols in iteration order, and the enclosing block. *)
#[warnings="-register-all"] Inductive Block : Type :=
| mkBlock (function : option string) (symbols : list Symbol)
          (superblock : option Block).

Definition function (b : Block) : option string :=
  let '(mkBlock f _ _) := b in f.
Definition symbols (b : Block) : list Symbol :=
  let '(mkBlock _ s _) := b in s.
Definition superblock (b : Block) : option Block :=
  let '(mkBlock _ _ up) := b in up.

(** What [FrameDecorator.function] answers: the name of the function, or
    the program counter as an [int] when gdb has no symbol. *)
Inductive func : Type :=
| FuncName (s : string)
| FuncAddr (pc : Z).

Record Frame : Type := {
  pc : Z;
  frame_function : func;
  block : outcome Block;
  frame_filename : option string;
  frame_line : option Z
}.

(** The session: the two parameters the program reads with
    [gdb.parameter] and the captured output of [gdb.execute]. *)
Record Host : Type := {
  print_address : bool;
  width : option Z;
  execute : string -> string
}.

End gdb.

(** The inherited methods of [gdb.FrameDecorator.FrameDecorator]. *)
Module FrameDecorator.

Definition address (frame : gdb.Frame) : Z := gdb.pc frame.
Definition function (frame : gdb.Frame) : gdb.func := gdb.frame_function frame.
Definition filename (frame : gdb.Frame) : option string := gdb.frame_filename frame.
Definition line (frame : gdb.Frame) : option Z := gdb.frame_line frame.

End FrameDecorator.

(** ** class FrameColorizer *)
Module FrameColorizer.

(** The object: the decorated frame and the depth given to [__init__]. *)
Record t : Type := {
  frame : gdb.Frame;
  _depth : Z
}.

Definition address (self : t) : string :=
  String ESC "[1;30m0x" ++ Py.fmt_016x (FrameDecorator.address (frame self))
    ++ String ESC "[0m".

Definition depth (self : t) : string :=
  String ESC "[1;37m#" ++ Py.fmt_ljust3_d (_depth self) ++ String ESC "[0m".

Definition filename (self : t) : string :=
  String ESC "[0;36m" ++ Py.fmt_s (FrameDecorator.filename (frame self))
    ++ String ESC "[0m".

(** The [while] loop of [frame_args]: the first block, going outwards,
    that has a function. *)
Fixpoint function_block (b : gdb.Block) : option gdb.Block :=
  match b with
  | gdb.mkBlock (Some _) _ _ => Some b
  | gdb.mkBlock None _ (Some up) => function_block up
  | gdb.mkBlock None _ None => None
  end.

(** The [for] loop of [frame_args] over the symbols still to visit, with
    the list [args] built so far. *)
Fixpoint collect_args (syms : list gdb.Symbol) (args : list string)
  : outcome (list string) :=
  match syms with
  | [] => Returned args
  | sym :: rest =>
      if negb (gdb.is_argument sym) then collect_args rest args
      else
        val <- gdb.value sym ;;
        let arg :=
          match val with
          | EmptyString => gdb.name sym
          | _ => gdb.name sym ++ "=" ++ val
          end in
        collect_args rest (args ++ [arg])
  end.

Definition frame_args (self : t) : outcome string :=
  block <- match gdb.block (frame self) with
           | Returned b => Returned (Some b)
           | Raised e => if is_RuntimeError e then Returned None else Raised e
           | Diverged => Diverged
           end ;;
  match match block with Some b => function_block b | None => None end with
  | None => Returned EmptyString
  | Some b =>
      args <- collect_args (gdb.symbols b) [] ;;
      Returned (Py.join ", " args)
  end.

Definition function (h : gdb.Host) (self : t) : string :=
  match FrameDecorator.function (frame self) with
  | gdb.FuncAddr func =>
      let symbol := gdb.execute h ("info symbol 0x" ++ Py.fmt_016x func) in
      let name := Py.strip (Py.slice_to symbol (Py.find symbol "in section" 0)) in
      let parts := Py.rsplit1 name " " in
      if Nat.eqb (List.length parts) 1 then name
      else
        match Py.int (nth 1 parts EmptyString) with
        | None => name
        | Some n =>
            let offset := Py.hex n in
            String ESC "[1;34m" ++ nth 0 parts EmptyString ++ " " ++ offset
              ++ String ESC "[0m"
        end
  | gdb.FuncName func => String ESC "[1;34m" ++ func ++ String ESC "[0m"
  end.

Definition get_screen_width (h : gdb.Host) (self : t) : option Z := gdb.width h.

Definition line (self : t) : string :=
  match FrameDecorator.line (frame self) with
  | Some value =>
      if value =? 0 then EmptyString
      else String ESC "[0;35m:" ++ Py.fmt_d value ++ String ESC "[0m"
  | None => EmptyString
  end.

(** The [while True] loop of [length], with the locals [start] and
    [term_seq_len] as arguments.  The fallback for a marker without a
    closing [m] evaluates [len(s)], and no name [s] is bound. *)
Fixpoint length_loop (fuel : nat) (colored_string : string)
  (start term_seq_len : Z) : outcome Z :=
  match fuel with
  | O => Diverged
  | S fuel' =>
      let begin := Py.find colored_string (String ESC "") start in
      if begin =? -1 then Returned (Py.len colored_string - term_seq_len)
      else
        let end_ := Py.find colored_string "m" begin in
        if end_ =? -1 then Raised NameError
        else
          length_loop fuel' colored_string end_
            (term_seq_len + (end_ - begin + 1))
  end.

(** Every round of the loop moves [start] forward, so one round more
    than the string has characters is enough. *)
Definition length (colored_string : string) : outcome Z :=
  length_loop (S (String.length colored_string)) colored_string 0 0.

(** The locals of [__str__]. *)
Definition part1 (h : gdb.Host) (self : t) : string :=
  if gdb.print_address h
  then depth self ++ "  " ++ address self ++ " in "
  else depth self ++ " ".

Definition part2 (h : gdb.Host) (self : t) (args : string) : string :=
  function h self ++ " " ++ String ESC "[1;37m(" ++ args ++ ")" ++ String ESC "[0m".

Definition part3 (self : t) : string := filename self ++ line self.

Definition parts (h : gdb.Host) (self : t) (args : string) : string :=
  part1 h self ++ part2 h self args ++ " at " ++ part3 self.

Definition __str__ (h : gdb.Host) (self : t) : outcome string :=
  let is_print_address := gdb.print_address h in
  args <- frame_args self ;;
  match get_screen_width h self with
  | Some screen_width =>
      if screen_width <? Py.len (parts h self args) then
        visible <- length (part1 h self) ;;
        let shift_width := visible - 1 - 3 * Py.int_of_bool is_print_address in
        Returned (part1 h self ++ part2 h self args ++ NL
                    ++ Py.repeat " " shift_width ++ " at " ++ part3 self)
      else Returned (parts h self args)
  | None => Returned (parts h self args)
  end.

End FrameColorizer.

(** ** class FilterProxy *)
Module FilterProxy.

(** The object holds the generator [self.frames]: the frames the host
    iterator has not handed out yet and the counter of [enumerate]. *)
Record t : Type := {
  frames : list gdb.Frame;
  ix : Z
}.

(** [FilterProxy(frames)] *)
Definition init (frames : list gdb.Frame) : t := {| frames := frames; ix := 0 |}.

Definition __iter__ (self : t) : t := self.

(** [join] draining the generator [output]: each frame is taken from
    [self.frames], wrapped with its depth and rendered; [out] holds the
    texts rendered so far.  An exception leaves the generator after the
    frame that raised. *)
Fixpoint drain (h : gdb.Host) (frames : list gdb.Frame) (ix : Z)
  (out : list string) : outcome (list string) * t :=
  match frames with
  | [] => (Returned out, {| frames := []; ix := ix |})
  | frame :: rest =>
      match FrameColorizer.__str__ h
              {| FrameColorizer.frame := frame; FrameColorizer._depth := ix |} with
      | Returned text => drain h rest (ix + 1) (out ++ [text])
      | Raised e => (Raised e, {| frames := rest; ix := ix + 1 |})
      | Diverged => (Diverged, {| frames := rest; ix := ix + 1 |})
      end
  end.

(** [print text]: the text and a line feed are appended to the output. *)
Definition print (stdout text : string) : string := stdout ++ text ++ NL.

(** The result of a method: its outcome, the object and the output
    stream afterwards. *)
Definition unroll_stack (h : gdb.Host) (self : t) (stdout : string)
  : outcome unit * t * string :=
  match drain h (frames self) (ix self) [] with
  | (Returned output, self') => (Returned tt, self', print stdout (Py.join NL output))
  | (Raised e, self') => (Raised e, self', stdout)
  | (Diverged, self') => (Diverged, self', stdout)
  end.

Definition next (h : gdb.Host) (self : t) (stdout : string)
  : outcome gdb.Frame * t * string :=
  match unroll_stack h self stdout with
  | (Returned _, self', stdout') => (Raised StopIteration, self', stdout')
  | (Raised e, self', stdout') => (Raised e, self', stdout')
  | (Diverged, self', stdout') => (Diverged, self', stdout')
  end.

End FilterProxy.

(** ** class ColourFilter *)
Module ColourFilter.

Definition filter (iters : list gdb.Frame) : FilterProxy.t := FilterProxy.init iters.

End ColourFilter.

(** ** The specification's notions, stated on the text itself *)
Module Spec.

(** [c] occurs in [s]. *)
Fixpoint has_char (c : ascii) (s : string) : bool :=
  match s with
  | EmptyString => false
  | String a s' => Ascii.eqb a c || has_char c s'
  end.

(** The index of the first [c] in [s]. *)
Fixpoint position (c : ascii) (s : string) : option nat :=
  match s with
  | EmptyString => None
  | String a s' => if Ascii.eqb a c then Some O else option_map S (position c s')
  end.

(** How often [c] occurs in [s]. *)
Fixpoint count_char (c : ascii) (s : string) : nat :=
  match s with
  | EmptyString => O
  | String a s' => (if Ascii.eqb a c then 1 else 0) + count_char c s'
  end.

(** The visible text: a control sequence starts at the marker [ESC] and
    ends with the next [m]; [inside] tells whether the scan is within
    one. *)
Fixpoint visible (inside : bool) (s : string) : string :=
  match s with
  | EmptyString => EmptyString
  | String c s' =>
      if inside then visible (negb (Ascii.eqb c "m")) s'
      else if Ascii.eqb c ESC then visible true s'
           else String c (visible false s')
  end.

(** The number of visible characters, [None] when the text ends within
    a control sequence. *)
Fixpoint visible_count (inside : bool) (s : string) : option nat :=
  match s with
  | EmptyString => if inside then None else Some O
  | String c s' =>
      if inside then visible_count (negb (Ascii.eqb c "m")) s'
      else if Ascii.eqb c ESC then visible_count true s'
           else option_map S (visible_count false s')
  end.

(** Some marker [ESC] has no [m] anywhere after it. *)
Fixpoint dangling_escape (s : string) : bool :=
  match s with
  | EmptyString => false
  | String c s' =>
      (Ascii.eqb c ESC && negb (has_char "m" s')) || dangling_escape s'
  end.

(** Each marker [ESC] is followed by a later [m]. *)
Fixpoint escapes_closed (s : string) : bool :=
  match s with
  | EmptyString => true
  | String c s' =>
      (if Ascii.eqb c ESC then has_char "m" s' else true) && escapes_closed s'
  end.

(** The text before the first occurrence of [sub], when there is one:
    what is left after stripping everything from [sub] onward. *)
Fixpoint before (sub s : string) : option string :=
  if Py.startswith s sub then Some EmptyString
  else match s with
       | EmptyString => None
       | String c s' => option_map (String c) (before sub s')
       end.

(** The text up to the first line feed. *)
Fixpoint first_line (s : string) : string :=
  match s with
  | EmptyString => EmptyString
  | String c s' => if Ascii.eqb c LF then EmptyString else String c (first_line s')
  end.

(** One rendered argument: [name=value], or the bare name for an empty
    value. *)
Definition argument (name value : string) : string :=
  match value with
  | EmptyString => name
  | _ => name ++ "=" ++ value
  end.

(** The evaluation of the symbol's value returns. *)
Definition evaluates (sym : gdb.Symbol) : bool :=
  match gdb.value sym with
  | Returned _ => true
  | _ => false
  end.

(** The text of a symbol's value when its evaluation returns. *)
Definition value_text (sym : gdb.Symbol) : string :=
  match gdb.value sym with
  | Returned v => v
  | _ => EmptyString
  end.

(** The arguments segment of a block whose values all evaluate. *)
Definition arguments (b : gdb.Block) : string :=
  Py.join ", "
    (map (fun sym => argument (gdb.name sym) (value_text sym))
         (List.filter gdb.is_argument (gdb.symbols b))).

(** [texts] are the renderings of [frames], tagged with the depths
    [ix], [ix + 1], ... in order. *)
Fixpoint rendered (h : gdb.Host) (ix : Z) (frames : list gdb.Frame)
  (texts : list string) : Prop :=
  match frames, texts with
  | [], [] => True
  | frame :: frames', text :: texts' =>
      FrameColorizer.__str__ h
        {| FrameColorizer.frame := frame; FrameColorizer._depth := ix |}
      = Returned text
      /\ rendered h (ix + 1) frames' texts'
  | _, _ => False
  end.

(** The file and line segment without its colours. *)
Definition plain_location (self : FrameColorizer.t) : string :=
  Py.fmt_s (FrameDecorator.filename (FrameColorizer.frame self))
    ++ match FrameDecorator.line (FrameColorizer.frame self) with
       | Some value => if value =? 0 then EmptyString else ":" ++ Py.fmt_d value
       | None => EmptyString
       end.

(** Every character of [s] is one of [alphabet]. *)
Definition within (alphabet s : string) : Prop :=
  forall c, has_char c s = true -> has_char c alphabet = true.

(** [b'] is reached from [b] through enclosing blocks, none of the
    blocks passed on the way having a function. *)
Inductive encloses : gdb.Block -> gdb.Block -> Prop :=
| encloses_here b : encloses b b
| encloses_up syms up b' :
    encloses up b' -> encloses (gdb.mkBlock None syms (Some up)) b'.

End Spec.

(** ** Sample sessions and frames *)
Module Examples.

(** A forty-column terminal that does not print addresses. *)
Definition narrow_host : gdb.Host :=
  {| gdb.print_address := false;
     gdb.width := Some 40;
     gdb.execute := fun _ => EmptyString |}.

(** A frame of a function whose name alone is wider than the terminal. *)
Definition long_name_frame : gdb.Frame :=
  {| gdb.pc := 4195622;
     gdb.frame_function :=
       gdb.FuncName "a_function_with_a_rather_long_name_to_print";
     gdb.block := Raised RuntimeError;
     gdb.frame_filename := Some "main.c";
     gdb.frame_line := Some 12 |}.

(** A session without a display width. *)
Definition unlimited_host : gdb.Host :=
  {| gdb.print_address := false;
     gdb.width := None;
     gdb.execute := fun _ => EmptyString |}.

(** A structure printed over several lines, as gdb prints it under
    [set print pretty on]. *)
Definition pretty_value : string :=
  "{" ++ NL ++ "  verbose = 1" ++ NL ++ "}".

Definition pretty_frame : gdb.Frame :=
  {| gdb.pc := 4195622;
     gdb.frame_function := gdb.FuncName "run";
     gdb.block :=
       Returned
         (gdb.mkBlock None
            [ {| gdb.name := "i"; gdb.is_argument := false;
                 gdb.value := Returned "0" |} ]
            (Some
               (gdb.mkBlock (Some "run")
                  [ {| gdb.name := "cfg"; gdb.is_argument := true;
                       gdb.value := Returned pretty_value |};
                    {| gdb.name := "unused"; gdb.is_argument := true;
                       gdb.value := Returned EmptyString |};
                    {| gdb.name := "rc"; gdb.is_argument := false;
                       gdb.value := Returned "0" |} ]
                  None)));
     gdb.frame_filename := Some "run.c";
     gdb.frame_line := Some 7 |}.

(** The nearest-symbol answers of a session that prints addresses on an
    eighty-column terminal. *)
Definition symbol_host (answer : string) : gdb.Host :=
  {| gdb.print_address := true;
     gdb.width := Some 80;
     gdb.execute := fun command =>
       if String.eqb command "info symbol 0x0000000000400000"
       then answer else "No symbol matches." ++ NL |}.

(** A frame for which gdb has only the address [0x400000]. *)
Definition address_frame : gdb.Frame :=
  {| gdb.pc := 4194304;
     gdb.frame_function := gdb.FuncAddr 4194304;
     gdb.block := Raised RuntimeError;
     gdb.frame_filename := None;
     gdb.frame_line := None |}.

Definition main_frame : gdb.Frame :=
  {| gdb.pc := 4195000;
     gdb.frame_function := gdb.FuncName "main";
     gdb.block := Returned (gdb.mkBlock (Some "main") [] None);
     gdb.frame_filename := Some "main.c";
     gdb.frame_line := Some 3 |}.

(** A frame whose second argument cannot be read: its evaluation raises
    [gdb.error].  The local before the arguments cannot be read either. *)
Definition failing_frame : gdb.Frame :=
  {| gdb.pc := 4196000;
     gdb.frame_function := gdb.FuncName "load";
     gdb.block :=
       Returned
         (gdb.mkBlock (Some "load")
            [ {| gdb.name := "tmp"; gdb.is_argument := false;
                 gdb.value := Raised GdbError |};
              {| gdb.name := "path"; gdb.is_argument := true;
                 gdb.value := Returned "0x0" |};
              {| gdb.name := "buf"; gdb.is_argument := true;
                 gdb.value := Raised GdbError |};
              {| gdb.name := "n"; gdb.is_argument := true;
                 gdb.value := Returned "4" |} ]
            None);
     gdb.frame_filename := Some "load.c";
     gdb.frame_line := Some 21 |}.

(** A frame whose blocks, up to the outermost, belong to no function. *)
Definition no_function_frame : gdb.Frame :=
  {| gdb.pc := 4197000;
     gdb.frame_function := gdb.FuncName "start";
     gdb.block :=
       Returned
         (gdb.mkBlock None
            [ {| gdb.name := "x"; gdb.is_argument := true;
                 gdb.value := Returned "1" |} ]
            (Some (gdb.mkBlock None [] None)));
     gdb.frame_filename := Some "start.S";
     gdb.frame_line := None |}.

(** A frame whose block lookup fails outside [RuntimeError]. *)
Definition broken_frame : gdb.Frame :=
  {| gdb.pc := 4198000;
     gdb.frame_function := gdb.FuncName "f";
     gdb.block := Raised ValueError;
     gdb.frame_filename := Some "f.c";
     gdb.frame_line := Some 1 |}.

(** A marker that is never closed. *)
Definition open_sequence : string := "#0  " ++ String ESC "[1;37".

(** The depth tag of the innermost frame. *)
Definition depth_tag_0 : string := String ESC "[1;37m#0  " ++ String ESC "[0m".

End Examples.

(** ** Three sentences of the specification, as they are worded *)
Module Stated.

Import FrameColorizer.

(** A line wider than the display is broken once, and its first line
    stays below the width. *)
Definition wrapped_below_width (h : gdb.Host) (self : t) : Prop :=
  forall (w : Z) (args : string),
    gdb.width h = Some w ->
    frame_args self = Returned args ->
    w < Py.len (parts h self args) ->
    exists (out : string) (measured v : Z),
      __str__ h self = Returned out
      /\ length (part1 h self) = Returned measured
      /\ out = part1 h self ++ part2 h self args ++ NL
                 ++ Py.repeat " " (measured - 1 - 3 * Py.int_of_bool (gdb.print_address h))
                 ++ " at " ++ part3 self
      /\ Spec.count_char LF out = 1%nat
      /\ length (Spec.first_line out) = Returned v
      /\ v < w.

(** Without a display width, or within it, the rendering is the
    assembly on a single line. *)
Definition unwrapped_single_line (h : gdb.Host) (self : t) : Prop :=
  forall (args : string),
    frame_args self = Returned args ->
    (gdb.width h = None
     \/ exists w, gdb.width h = Some w /\ Py.len (parts h self args) <= w) ->
    __str__ h self = Returned (parts h self args)
    /\ Spec.has_char LF (parts h self args) = false.

(** The first pass over three frames prints their block and ends; a
    second pass prints nothing and ends. *)
Definition second_pass_silent (h : gdb.Host) (f0 f1 f2 : gdb.Frame) : Prop :=
  forall (r0 r1 r2 : string),
    __str__ h {| frame := f0; _depth := 0 |} = Returned r0 ->
    __str__ h {| frame := f1; _depth := 1 |} = Returned r1 ->
    __str__ h {| frame := f2; _depth := 2 |} = Returned r2 ->
    let proxy := FilterProxy.__iter__ (ColourFilter.filter [f0; f1; f2]) in
    let block := Py.join NL [r0; r1; r2] in
    exists proxy',
      FilterProxy.next h proxy EmptyString
      = (Raised StopIteration, proxy', FilterProxy.print EmptyString block)
      /\ FilterProxy.next h (FilterProxy.__iter__ proxy')
           (FilterProxy.print EmptyString block)
         = (Raised StopIteration, proxy', FilterProxy.print EmptyString block).

End Stated.

(** * Properties *)

(** ** Strings *)
Section Strings.

Lemma length_append (a b : string) :
  String.length (a ++ b) = (String.length a + String.length b)%nat.
Proof. induction a as [|c a IH]; simpl; [reflexivity | now rewrite IH]. Qed.

Lemma append_assoc (a b c : string) : (a ++ b) ++ c = a ++ b ++ c.
Proof. induction a as [|x a IH]; simpl; [reflexivity | now rewrite IH]. Qed.

Lemma append_nil_r (a : string) : a ++ "" = a.
Proof. induction a as [|x a IH]; simpl; [reflexivity | now rewrite IH]. Qed.

Lemma len_app (a b : string) : Py.len (a ++ b) = Py.len a + Py.len b.
Proof. unfold Py.len. rewrite length_append. lia. Qed.

Lemma len_String (c : ascii) (s : string) : Py.len (String c s) = 1 + Py.len s.
Proof. unfold Py.len. simpl String.length. lia. Qed.

Lemma len_nonneg (s : string) : 0 <= Py.len s.
Proof. unfold Py.len. lia. Qed.

Lemma has_char_app (c : ascii) (a b : string) :
  Spec.has_char c (a ++ b) = Spec.has_char c a || Spec.has_char c b.
Proof.
  induction a as [|x a IH]; simpl; [reflexivity|].
  rewrite IH. now rewrite orb_assoc.
Qed.

Lemma position_none (c : ascii) (s : string) :
  Spec.position c s = None <-> Spec.has_char c s = false.
Proof.
  induction s as [|a s IH]; simpl; [tauto|].
  destruct (Ascii.eqb a c); simpl; [split; discriminate|].
  destruct (Spec.position c s); simpl in *; [|tauto].
  split; [discriminate|]. intros H. apply IH in H. discriminate.
Qed.

(** A found position splits the text around the first occurrence. *)
Lemma position_split (c : ascii) (s : string) (k : nat) :
  Spec.position c s = Some k ->
  exists a b, s = a ++ String c b /\ String.length a = k
              /\ Spec.has_char c a = false.
Proof.
  revert k. induction s as [|x s IH]; simpl; intros k H; [discriminate|].
  destruct (Ascii.eqb_spec x c) as [->|Hne].
  - injection H as <-. now exists "", s.
  - destruct (Spec.position c s) as [k'|]; [|discriminate].
    injection H as <-. destruct (IH k' eq_refl) as (a & b & -> & Hl & Ha).
    exists (String x a), b. simpl. repeat split; [now rewrite Hl|].
    apply Ascii.eqb_neq in Hne. now rewrite Hne.
Qed.

End Strings.

(** ** [find] with a one-character pattern *)
Section Find.

Lemma startswith_char (c : ascii) (s : string) :
  Py.startswith s (String c "") =
  match s with String a _ => Ascii.eqb a c | EmptyString => false end.
Proof. destruct s as [|a s]; simpl; [reflexivity|]. destruct s; apply andb_true_r. Qed.

Lemma search_char_here (c : ascii) (t : string) :
  Py.search t (String c "") 0 = Spec.position c t.
Proof.
  induction t as [|a t IH]; [reflexivity|].
  cbn [Py.search]. rewrite startswith_char, IH. reflexivity.
Qed.

Lemma search_char_free (c : ascii) (p t : string) :
  Spec.has_char c p = false ->
  Py.search (p ++ t) (String c "") 0 =
  option_map (fun k => (String.length p + k)%nat) (Spec.position c t).
Proof.
  induction p as [|a p IH]; intros Hp.
  - simpl. rewrite search_char_here. now destruct (Spec.position c t).
  - simpl in Hp. apply orb_false_iff in Hp as [Ha Hp].
    change (String a p ++ t) with (String a (p ++ t)).
    cbn [Py.search]. rewrite startswith_char, Ha, (IH Hp).
    now destruct (Spec.position c t).
Qed.

Lemma search_char_skip (c : ascii) (p1 p2 t : string) :
  Spec.has_char c p2 = false ->
  Py.search (p1 ++ p2 ++ t) (String c "") (String.length p1) =
  option_map (fun k => (String.length p1 + String.length p2 + k)%nat)
             (Spec.position c t).
Proof.
  intros Hp. induction p1 as [|a p1 IH].
  - simpl. now apply search_char_free.
  - simpl. rewrite IH. now destruct (Spec.position c t).
Qed.

(** Searching from the end of [p1], past a stretch [p2] without [c]. *)
Lemma find_char (c : ascii) (p1 p2 t : string) :
  Spec.has_char c p2 = false ->
  Py.find (p1 ++ p2 ++ t) (String c "") (Py.len p1) =
  match Spec.position c t with
  | Some k => Py.len p1 + Py.len p2 + Z.of_nat k
  | None => -1
  end.
Proof.
  intros Hp. unfold Py.find.
  assert ((Py.len p1 <? 0) = false) as -> by (apply Z.ltb_ge, len_nonneg).
  unfold Py.len at 1. rewrite Nat2Z.id, (search_char_skip _ _ _ _ Hp).
  destruct (Spec.position c t); simpl; [unfold Py.len; lia | reflexivity].
Qed.

End Find.

(** ** The scanner of the specification *)
Section Scanner.

Lemma ESC_not_m : Ascii.eqb ESC "m" = false.
Proof. reflexivity. Qed.

Lemma visible_count_plain (a u : string) :
  Spec.has_char ESC a = false ->
  Spec.visible_count false (a ++ u) =
  option_map (fun n => (String.length a + n)%nat) (Spec.visible_count false u).
Proof.
  induction a as [|x a IH]; simpl; intros Ha.
  - now destruct (Spec.visible_count false u).
  - apply orb_false_iff in Ha as [Hx Ha]. rewrite Hx, (IH Ha).
    now destruct (Spec.visible_count false u).
Qed.

Lemma visible_count_sequence (c d : string) :
  Spec.has_char "m" c = false ->
  Spec.visible_count true (c ++ String "m" d) = Spec.visible_count false d.
Proof.
  induction c as [|x c IH]; simpl; intros Hc; [reflexivity|].
  apply orb_false_iff in Hc as [Hx Hc]. rewrite Hx. simpl. now apply IH.
Qed.

Lemma visible_count_open (b : string) :
  Spec.has_char "m" b = false -> Spec.visible_count true b = None.
Proof.
  induction b as [|x b IH]; simpl; intros Hb; [reflexivity|].
  apply orb_false_iff in Hb as [Hx Hb]. rewrite Hx. simpl. now apply IH.
Qed.

(** The count is the length of the visible text. *)
Lemma visible_count_length (inside : bool) (s : string) (n : nat) :
  Spec.visible_count inside s = Some n ->
  n = String.length (Spec.visible inside s).
Proof.
  revert inside n. induction s as [|c s IH]; intros inside n; simpl.
  - destruct inside; [discriminate | now intros [= <-]].
  - destruct inside; [apply IH|].
    destruct (Ascii.eqb c ESC); [apply IH|].
    destruct (Spec.visible_count false s) as [k|] eqn:E; [|discriminate].
    intros [= <-]. simpl. f_equal. now apply IH.
Qed.

Lemma visible_count_le (inside : bool) (s : string) (n : nat) :
  Spec.visible_count inside s = Some n -> (n <= String.length s)%nat.
Proof.
  revert inside n. induction s as [|c s IH]; intros inside n; simpl.
  - destruct inside; [discriminate | intros [= <-]; lia].
  - destruct inside; [intros H; apply IH in H; lia|].
    destruct (Ascii.eqb c ESC); [intros H; apply IH in H; lia|].
    destruct (Spec.visible_count false s) as [k|] eqn:E; [|discriminate].
    intros [= <-]. specialize (IH _ _ E). lia.
Qed.

(** The scan ends within a sequence exactly when it started in one that
    is never closed, or meets a marker without a later [m]. *)
Lemma visible_count_none (inside : bool) (s : string) :
  match Spec.visible_count inside s with None => true | Some _ => false end =
  (inside && negb (Spec.has_char "m" s)) || Spec.dangling_escape s.
Proof.
  revert inside. induction s as [|c s IH]; intros inside; simpl.
  - now destruct inside.
  - destruct inside; simpl.
    + rewrite IH. destruct (Ascii.eqb_spec c "m") as [->|Hm]; simpl.
      * reflexivity.
      * destruct (Ascii.eqb c ESC), (Spec.has_char "m" s); reflexivity.
    + destruct (Ascii.eqb c ESC); simpl.
      * now rewrite IH.
      * specialize (IH false). simpl in IH. rewrite <- IH.
        now destruct (Spec.visible_count false s).
Qed.

Lemma dangling_not_closed (s : string) :
  Spec.dangling_escape s = negb (Spec.escapes_closed s).
Proof.
  induction s as [|c s IH]; simpl; [reflexivity|].
  rewrite IH. destruct (Ascii.eqb c ESC), (Spec.has_char "m" s); simpl;
    try reflexivity; now destruct (Spec.escapes_closed s).
Qed.

(** Whatever precedes it, a text that holds an [m] and closes its own
    markers closes all of them. *)
Lemma escapes_closed_app (a t : string) :
  Spec.has_char "m" t = true -> Spec.escapes_closed t = true ->
  Spec.escapes_closed (a ++ t) = true.
Proof.
  intros Hm Ht. induction a as [|x a IH]; simpl; [assumption|].
  rewrite IH, has_char_app, Hm, orb_true_r. now destruct (Ascii.eqb x ESC).
Qed.

End Scanner.

(** ** The loop of [length] *)
Section Length.

Import FrameColorizer.

(** The loop, started at the end of [p1] with a stretch [p2] free of
    markers ahead, measures the rest [t] as the scanner does. *)
Lemma length_loop_scan (fuel : nat) :
  forall (t p1 p2 : string) (acc : Z),
    Spec.has_char ESC p2 = false ->
    (String.length t < fuel)%nat ->
    length_loop fuel (p1 ++ p2 ++ t) (Py.len p1) acc =
    match Spec.visible_count false t with
    | Some n => Returned (Py.len p1 + Py.len p2 + Z.of_nat n - acc)
    | None => Raised NameError
    end.
Proof.
  induction fuel as [|fuel IH]; intros t p1 p2 acc Hp Hfuel; [lia|].
  cbn [length_loop]. rewrite (find_char ESC p1 p2 t Hp).
  destruct (Spec.position ESC t) as [k|] eqn:Hpos.
  - destruct (position_split _ _ _ Hpos) as (a & b & -> & Hk & Ha).
    assert (Hbegin : (Py.len p1 + Py.len p2 + Z.of_nat k =? -1) = false)
      by (apply Z.eqb_neq; pose proof (len_nonneg p1); pose proof (len_nonneg p2); lia).
    rewrite Hbegin.
    rewrite (visible_count_plain a _ Ha). cbn [Spec.visible_count].
    rewrite Ascii.eqb_refl.
    assert (Hfind :
              Py.find (p1 ++ p2 ++ a ++ String ESC b) "m"
                (Py.len p1 + Py.len p2 + Z.of_nat k) =
              match Spec.position "m" b with
              | Some j => Py.len p1 + Py.len p2 + Z.of_nat k + 1 + Z.of_nat j
              | None => -1
              end).
    { replace (p1 ++ p2 ++ a ++ String ESC b)
        with ((p1 ++ p2 ++ a) ++ "" ++ String ESC b) by (now rewrite !append_assoc).
      replace (Py.len p1 + Py.len p2 + Z.of_nat k) with (Py.len (p1 ++ p2 ++ a))
        by (rewrite !len_app; unfold Py.len; lia).
      rewrite (find_char "m" (p1 ++ p2 ++ a) "" (String ESC b) eq_refl).
      cbn [Spec.position]. rewrite ESC_not_m.
      destruct (Spec.position "m" b); cbn [option_map]; [|reflexivity].
      unfold Py.len at 2. simpl String.length. lia. }
    rewrite Hfind.
    destruct (Spec.position "m" b) as [j|] eqn:Hposm.
    + destruct (position_split _ _ _ Hposm) as (c & d & -> & Hj & Hc).
      assert (Hend : (Py.len p1 + Py.len p2 + Z.of_nat k + 1 + Z.of_nat j =? -1) = false)
        by (apply Z.eqb_neq; pose proof (len_nonneg p1); pose proof (len_nonneg p2); lia).
      rewrite Hend.
      rewrite (visible_count_sequence c d Hc).
      replace (p1 ++ p2 ++ a ++ String ESC (c ++ String "m" d))
        with ((p1 ++ p2 ++ a ++ String ESC c) ++ "m" ++ d)
        by (rewrite !append_assoc; reflexivity).
      replace (Py.len p1 + Py.len p2 + Z.of_nat k + 1 + Z.of_nat j)
        with (Py.len (p1 ++ p2 ++ a ++ String ESC c))
        by (rewrite !len_app, len_String; unfold Py.len; lia).
      rewrite (IH d (p1 ++ p2 ++ a ++ String ESC c) "m" _ eq_refl).
      * destruct (Spec.visible_count false d) as [n|]; cbn [option_map]; [|reflexivity].
        f_equal. rewrite !len_app, len_String. unfold Py.len. simpl String.length. lia.
      * rewrite !length_append in Hfuel. simpl in Hfuel. rewrite length_append in Hfuel.
        simpl in Hfuel. lia.
    + rewrite Z.eqb_refl, (visible_count_open b); [reflexivity|].
      now apply position_none.
  - rewrite Z.eqb_refl. apply position_none in Hpos.
    pose proof (visible_count_plain t "" Hpos) as Hv.
    rewrite append_nil_r in Hv. rewrite Hv.
    cbn [Spec.visible_count option_map]. f_equal. rewrite !len_app.
    unfold Py.len. lia.
Qed.

Lemma length_loop_from_start (fuel : nat) (s : string) :
  (String.length s < fuel)%nat ->
  length_loop fuel s 0 0 =
  match Spec.visible_count false s with
  | Some n => Returned (Z.of_nat n)
  | None => Raised NameError
  end.
Proof.
  intros H. pose proof (length_loop_scan fuel s "" "" 0 eq_refl H) as E.
  cbn [append] in E. change (Py.len "") with 0 in E. rewrite E.
  destruct (Spec.visible_count false s); [f_equal; lia | reflexivity].
Qed.

(** [length] is the scanner of the specification, and the unbound name
    is what an unfinished sequence runs into. *)
Lemma length_scan (s : string) :
  length s =
  match Spec.visible_count false s with
  | Some n => Returned (Z.of_nat n)
  | None => Raised NameError
  end.
Proof. apply length_loop_from_start, Nat.lt_succ_diag_r. Qed.

(** More fuel does not change the answer: the fuel of [length] suffices. *)
Lemma length_loop_enough (fuel : nat) (s : string) :
  (String.length s < fuel)%nat -> length_loop fuel s 0 0 = length s.
Proof.
  intros H. now rewrite length_scan, (length_loop_from_start fuel s H).
Qed.

Lemma length_total (s : string) : length s <> Diverged.
Proof. rewrite length_scan. now destruct (Spec.visible_count false s). Qed.

(** A text measured at [va] leaves the scan outside any sequence. *)
Lemma visible_count_append (a b : string) :
  forall (inside : bool) (va : nat),
    Spec.visible_count inside a = Some va ->
    Spec.visible_count inside (a ++ b) =
    option_map (fun n => (va + n)%nat) (Spec.visible_count false b).
Proof.
  induction a as [|c a IH]; intros inside va; simpl.
  - destruct inside; [discriminate|]. intros [= <-].
    now destruct (Spec.visible_count false b).
  - destruct inside; [apply IH|].
    destruct (Ascii.eqb c ESC); [apply IH|].
    destruct (Spec.visible_count false a) as [k|] eqn:E; [|discriminate].
    intros [= <-]. rewrite (IH false k E).
    now destruct (Spec.visible_count false b).
Qed.

Lemma length_returned_count (s : string) (v : Z) :
  length s = Returned v ->
  exists n, Spec.visible_count false s = Some n /\ v = Z.of_nat n.
Proof.
  rewrite length_scan. destruct (Spec.visible_count false s) as [n|]; [|discriminate].
  intros [= <-]. now exists n.
Qed.

End Length.

(** ** The predicates of the specification, by positions *)
Section Positions.

Lemma has_char_get (c : ascii) (s : string) :
  Spec.has_char c s = true <-> exists i, String.get i s = Some c.
Proof.
  induction s as [|a s IH]; simpl.
  - split; [discriminate | intros [i H]; discriminate].
  - rewrite orb_true_iff, IH. split.
    + intros [H|[i H]]; [exists O; apply Ascii.eqb_eq in H; now subst | now exists (S i)].
    + intros [[|i] H]; [left; injection H as ->; apply Ascii.eqb_refl | right; eauto].
Qed.

(** [dangling_escape]: at some position stands a marker, and at no later
    position an [m]. *)
Lemma dangling_escape_get (s : string) :
  Spec.dangling_escape s = true <->
  exists i, String.get i s = Some ESC
            /\ forall j, (i < j)%nat -> String.get j s <> Some "m"%char.
Proof.
  induction s as [|a s IH]; simpl.
  - split; [discriminate | intros (i & H & _); discriminate].
  - rewrite orb_true_iff, andb_true_iff, negb_true_iff, IH. split.
    + intros [[Ha Hm]|(i & Hi & Hlater)].
      * exists O. apply Ascii.eqb_eq in Ha. subst a. split; [reflexivity|].
        intros [|j] Hj Hget; [lia|].
        assert (Spec.has_char "m" s = true) by (apply has_char_get; eauto).
        congruence.
      * exists (S i). split; [assumption|].
        intros [|j] Hj; [lia|]. apply Hlater. lia.
    + intros ([|i] & Hi & Hlater).
      * left. injection Hi as ->. split; [apply Ascii.eqb_refl|].
        destruct (Spec.has_char "m" s) eqn:E; [|reflexivity].
        apply has_char_get in E as [k Hk]. now destruct (Hlater (S k) ltac:(lia)).
      * right. exists i. split; [assumption|].
        intros j Hj. apply (Hlater (S j)). lia.
Qed.

(** [escapes_closed]: after every marker comes an [m]. *)
Lemma escapes_closed_get (s : string) :
  Spec.escapes_closed s = true <->
  forall i, String.get i s = Some ESC ->
            exists j, (i < j)%nat /\ String.get j s = Some "m"%char.
Proof.
  induction s as [|a s IH]; simpl.
  - split; [intros _ i H; discriminate | reflexivity].
  - rewrite andb_true_iff, IH. split.
    + intros [Ha Hs] [|i] Hi.
      * injection Hi as ->. rewrite Ascii.eqb_refl in Ha.
        apply has_char_get in Ha as [k Hk]. exists (S k). split; [lia | assumption].
      * destruct (Hs i Hi) as (j & Hj & Hm). exists (S j). split; [lia | assumption].
    + intros H. split.
      * destruct (Ascii.eqb_spec a ESC) as [->|]; [|reflexivity].
        destruct (H O eq_refl) as ([|j] & Hj & Hm); [lia|].
        apply has_char_get. eauto.
      * intros i Hi. destruct (H (S i) Hi) as ([|j] & Hj & Hm); [lia|].
        exists j. split; [lia | assumption].
Qed.

Lemma startswith_split (s sub : string) :
  Py.startswith s sub = true -> exists rest, s = sub ++ rest.
Proof.
  revert s. induction sub as [|b sub IH]; intros s; simpl.
  - intros _. now exists s.
  - destruct s as [|a s]; [discriminate|].
    intros [Hab Hs]%andb_true_iff. apply Ascii.eqb_eq in Hab. subst b.
    destruct (IH _ Hs) as [rest ->]. now exists rest.
Qed.

(** [before]: the text continues with the marker. *)
Lemma before_split (sub s b : string) :
  Spec.before sub s = Some b -> exists rest, s = b ++ sub ++ rest.
Proof.
  revert b. induction s as [|c s IH]; intros b; cbn [Spec.before].
  - destruct (Py.startswith "" sub) eqn:E; [|discriminate].
    intros [= <-]. now apply startswith_split.
  - destruct (Py.startswith (String c s) sub) eqn:E.
    + intros [= <-]. now apply startswith_split.
    + destruct (Spec.before sub s) as [b'|]; [|discriminate].
      intros [= <-]. destruct (IH b' eq_refl) as [rest ->]. now exists rest.
Qed.

End Positions.

(** ** The characters of formatted numbers *)
Section Formats.

Import Spec.

Lemma within_app (alphabet a b : string) :
  within alphabet a -> within alphabet b -> within alphabet (a ++ b).
Proof.
  intros Ha Hb c. rewrite has_char_app. intros [H|H]%orb_true_iff; auto.
Qed.

Lemma within_String (alphabet : string) (x : ascii) (s : string) :
  Spec.has_char x alphabet = true -> within alphabet s ->
  within alphabet (String x s).
Proof.
  intros Hx Hs c. simpl. intros [H|H]%orb_true_iff; [|auto].
  apply Ascii.eqb_eq in H. now subst.
Qed.

Lemma within_nil (alphabet : string) : within alphabet "".
Proof. intros c. discriminate. Qed.

Lemma within_repeat (alphabet : string) (x : ascii) (n : Z) :
  Spec.has_char x alphabet = true -> within alphabet (Py.repeat (String x "") n).
Proof.
  intros Hx. unfold Py.repeat. induction (Z.to_nat n) as [|k IH]; simpl.
  - apply within_nil.
  - destruct (List.repeat (String x "") k) eqn:E; simpl in *.
    + apply within_String; [assumption | apply within_nil].
    + apply within_String; assumption.
Qed.

Lemma within_dec_digits (n : Z) : within "-0123456789 " (Py.dec_digits n).
Proof.
  unfold Py.dec_digits, DecimalString.NilZero.string_of_uint.
  assert (H : forall d, within "-0123456789 " (DecimalString.NilEmpty.string_of_uint d))
    by (induction d; simpl; try apply within_nil; now apply within_String).
  destruct (N.to_uint (Z.to_N n)); try apply H.
  apply within_String; [reflexivity | apply within_nil].
Qed.

Lemma within_hex_digits (n : Z) : within "-0123456789abcdef" (Py.hex_digits n).
Proof.
  unfold Py.hex_digits, HexadecimalString.NilZero.string_of_uint.
  assert (H : forall d, within "-0123456789abcdef"
                          (HexadecimalString.NilEmpty.string_of_uint d))
    by (induction d; simpl; try apply within_nil; now apply within_String).
  destruct (N.to_hex_uint (Z.to_N n)); try apply H.
  apply within_String; [reflexivity | apply within_nil].
Qed.

Lemma within_fmt_d (n : Z) : within "-0123456789 " (Py.fmt_d n).
Proof.
  unfold Py.fmt_d. destruct (n <? 0); [|apply within_dec_digits].
  apply within_String; [reflexivity | apply within_dec_digits].
Qed.

Lemma within_fmt_ljust3_d (n : Z) : within "-0123456789 " (Py.fmt_ljust3_d n).
Proof.
  unfold Py.fmt_ljust3_d. apply within_app; [apply within_fmt_d|].
  now apply within_repeat.
Qed.

Lemma within_fmt_016x (n : Z) : within "-0123456789abcdef" (Py.fmt_016x n).
Proof.
  unfold Py.fmt_016x. apply within_app; [|apply within_app].
  - destruct (n <? 0); [|apply within_nil].
    apply within_String; [reflexivity | apply within_nil].
  - now apply within_repeat.
  - apply within_hex_digits.
Qed.

(** A character outside the alphabet does not occur. *)
Lemma within_absent (alphabet s : string) (c : ascii) :
  within alphabet s -> Spec.has_char c alphabet = false ->
  Spec.has_char c s = false.
Proof.
  intros Hs Hc. destruct (Spec.has_char c s) eqn:E; [|reflexivity].
  apply Hs in E. congruence.
Qed.

End Formats.

(** ** Counting line feeds and cutting the first line *)
Section Lines.

Lemma count_char_app (c : ascii) (a b : string) :
  Spec.count_char c (a ++ b) = (Spec.count_char c a + Spec.count_char c b)%nat.
Proof. induction a as [|x a IH]; simpl; [reflexivity | rewrite IH; lia]. Qed.

Lemma count_char_absent (c : ascii) (s : string) :
  Spec.has_char c s = false -> Spec.count_char c s = 0%nat.
Proof.
  induction s as [|x s IH]; simpl; [reflexivity|].
  intros [Hx Hs]%orb_false_iff. now rewrite Hx, IH.
Qed.

Lemma first_line_app (a b : string) :
  Spec.has_char LF a = false -> Spec.first_line (a ++ String LF b) = a.
Proof.
  induction a as [|x a IH]; simpl; [reflexivity|].
  intros [Hx Ha]%orb_false_iff. now rewrite Hx, IH.
Qed.

Lemma visible_plain (a u : string) :
  Spec.has_char ESC a = false ->
  Spec.visible false (a ++ u) = a ++ Spec.visible false u.
Proof.
  induction a as [|x a IH]; simpl; [reflexivity|].
  intros [Hx Ha]%orb_false_iff. now rewrite Hx, IH.
Qed.

End Lines.

(** ** The segments of a rendered frame *)
Section Segments.

Import FrameColorizer.

Variable h : gdb.Host.
Variable self : t.

Lemma depth_no_LF : Spec.has_char LF (depth self) = false.
Proof.
  unfold depth. rewrite !has_char_app.
  now rewrite (within_absent _ _ LF (within_fmt_ljust3_d _) eq_refl).
Qed.

Lemma address_no_LF : Spec.has_char LF (address self) = false.
Proof.
  unfold address. rewrite !has_char_app.
  now rewrite (within_absent _ _ LF (within_fmt_016x _) eq_refl).
Qed.

Lemma part1_no_LF : Spec.has_char LF (part1 h self) = false.
Proof.
  unfold part1. destruct (gdb.print_address h); rewrite !has_char_app;
    now rewrite ?depth_no_LF, ?address_no_LF.
Qed.

Lemma line_no_LF : Spec.has_char LF (line self) = false.
Proof.
  unfold line. destruct (FrameDecorator.line (frame self)) as [v|]; [|reflexivity].
  destruct (v =? 0); [reflexivity|]. rewrite !has_char_app.
  now rewrite (within_absent _ _ LF (within_fmt_d _) eq_refl).
Qed.

(** What is left of the prefix once its colour sequences are taken out. *)
Lemma visible_part1 :
  Spec.visible false (part1 h self) =
  if gdb.print_address h
  then "#" ++ Py.fmt_ljust3_d (_depth self) ++ "  0x"
         ++ Py.fmt_016x (FrameDecorator.address (frame self)) ++ " in "
  else "#" ++ Py.fmt_ljust3_d (_depth self) ++ " ".
Proof.
  pose proof (within_absent _ _ ESC (within_fmt_ljust3_d (_depth self)) eq_refl) as Hd.
  pose proof (within_absent _ _ ESC
                (within_fmt_016x (FrameDecorator.address (frame self))) eq_refl) as Ha.
  unfold part1, depth, address.
  destruct (gdb.print_address h); rewrite !append_assoc; cbn -[Py.fmt_ljust3_d Py.fmt_016x];
    rewrite (visible_plain _ _ Hd); cbn -[Py.fmt_ljust3_d Py.fmt_016x];
    [rewrite (visible_plain _ _ Ha); cbn -[Py.fmt_ljust3_d Py.fmt_016x]|]; reflexivity.
Qed.

(** The markers of the prefix are all closed: it ends with a reset
    sequence followed by plain text. *)
Lemma part1_closed : Spec.escapes_closed (part1 h self) = true.
Proof.
  unfold part1. destruct (gdb.print_address h).
  - replace (depth self ++ "  " ++ address self ++ " in ")
      with ((depth self ++ "  " ++ String ESC "[1;30m0x"
               ++ Py.fmt_016x (FrameDecorator.address (frame self)))
              ++ String ESC "[0m in ")
      by (unfold address; rewrite !append_assoc; reflexivity).
    now apply escapes_closed_app.
  - replace (depth self ++ " ")
      with ((String ESC "[1;37m#" ++ Py.fmt_ljust3_d (_depth self))
              ++ String ESC "[0m ")
      by (unfold depth; rewrite !append_assoc; reflexivity).
    now apply escapes_closed_app.
Qed.

Lemma length_closed (s : string) :
  Spec.escapes_closed s = true ->
  length s = Returned (Py.len (Spec.visible false s)).
Proof.
  intros Hs. rewrite length_scan.
  pose proof (visible_count_none false s) as Hn.
  rewrite dangling_not_closed, Hs in Hn. simpl in Hn.
  destruct (Spec.visible_count false s) as [n|] eqn:E; [|discriminate].
  unfold Py.len. now rewrite (visible_count_length _ _ _ E).
Qed.

Lemma length_part1 :
  length (part1 h self) = Returned (Py.len (Spec.visible false (part1 h self))).
Proof. apply length_closed, part1_closed. Qed.

End Segments.

(** ** The measured length *)
Section VisibleLength.

Import FrameColorizer.

(** C4: the visible-length computation takes the colour sequences out
    before it counts.  On every text whose markers are all closed it
    returns the length of the text without its sequences; a sequence,
    from the marker ESC to the next [m], put in anywhere outside the
    sequences of a text leaves the returned length as it was, so a pair
    of colour markers around a text without markers gives the length of
    that text: each pair contributes zero.  On "\033[1;37m#0  \033[0m",
    the depth tag of frame 0, it returns 4, the length of "#0  ". *)
Theorem length_strips_colour_sequences :
  (forall s : string,
      Spec.escapes_closed s = true ->
      length s = Returned (Py.len (Spec.visible false s)))
  /\ (forall (a code b : string) (va : Z),
        length a = Returned va ->
        Spec.has_char "m" code = false ->
        length (a ++ String ESC code ++ "m" ++ b) = length (a ++ b))
  /\ (forall (code text code' : string),
        Spec.has_char "m" code = false ->
        Spec.has_char ESC text = false ->
        Spec.has_char "m" code' = false ->
        length (String ESC code ++ "m" ++ text ++ String ESC code' ++ "m")
        = Returned (Py.len text))
  /\ length (String ESC "[1;37m#0  " ++ String ESC "[0m") = Returned 4
  /\ Py.len "#0  " = 4
  /\ Spec.visible false (String ESC "[1;37m#0  " ++ String ESC "[0m") = "#0  "
  /\ depth {| frame := Examples.main_frame; _depth := 0 |}
     = String ESC "[1;37m#0  " ++ String ESC "[0m".
Proof.
  split; [exact length_closed|]. split; [|split].
  - intros a code b va Ha Hcode.
    destruct (length_returned_count _ _ Ha) as (n & Hn & _).
    rewrite !length_scan, !(visible_count_append a _ false n Hn).
    cbn [append Spec.visible_count]. rewrite Ascii.eqb_refl.
    now rewrite (visible_count_sequence code b Hcode).
  - intros code text code' Hcode Htext Hcode'. rewrite length_scan.
    cbn [append Spec.visible_count]. rewrite Ascii.eqb_refl.
    rewrite (visible_count_sequence code _ Hcode).
    rewrite (visible_count_plain text _ Htext).
    cbn [Spec.visible_count]. rewrite Ascii.eqb_refl.
    rewrite (visible_count_sequence code' "" Hcode').
    cbn [Spec.visible_count option_map]. f_equal. unfold Py.len. lia.
  - repeat split; vm_compute; reflexivity.
Qed.

Lemma length_strips_colour_sequences_witness :
  length (String ESC "[0;36m" ++ "main.c" ++ String ESC "[0m")
  = Returned (Py.len (Spec.visible false
                        (String ESC "[0;36m" ++ "main.c" ++ String ESC "[0m")))
  /\ length ("#0  " ++ String ESC "[1;34" ++ "m" ++ "main")
     = length ("#0  " ++ "main")
  /\ length (String ESC "[1;34" ++ "m" ++ "main" ++ String ESC "[0" ++ "m")
     = Returned (Py.len "main").
Proof.
  destruct length_strips_colour_sequences as (Hstrip & Hzero & Hpair & _).
  split; [|split].
  - apply (Hstrip (String ESC "[0;36m" ++ "main.c" ++ String ESC "[0m")). reflexivity.
  - apply (Hzero "#0  " "[1;34" "main" 4); reflexivity.
  - apply (Hpair "[1;34" "main" "[0"); reflexivity.
Defined.

(** C3: on every string that holds a marker ESC with no [m] anywhere
    after it, the computation reaches the fallback that names the unbound
    variable and fails with NameError; it returns no length. *)
Theorem length_dangling_escape (s : string) :
  Spec.dangling_escape s = true -> length s = Raised NameError.
Proof.
  intros Hs. rewrite length_scan.
  pose proof (visible_count_none false s) as Hn.
  rewrite Hs in Hn. simpl in Hn.
  now destruct (Spec.visible_count false s).
Qed.

Lemma length_dangling_escape_witness :
  Spec.dangling_escape Examples.open_sequence = true
  /\ length Examples.open_sequence = Raised NameError.
Proof.
  split; [reflexivity | apply (length_dangling_escape Examples.open_sequence); reflexivity].
Defined.

(** C10: when each marker ESC of the string is followed by a later [m],
    the computation returns a value between 0 and the raw length of the
    string: the sequences it counts do not overlap, so what it subtracts
    never exceeds the length.  The value is the length of the visible
    text. *)
Theorem length_bounds (s : string) :
  Spec.escapes_closed s = true ->
  exists v : Z,
    length s = Returned v
    /\ 0 <= v <= Py.len s
    /\ 0 <= Py.len s - v <= Py.len s
    /\ v = Py.len (Spec.visible false s).
Proof.
  intros Hs. rewrite length_scan.
  pose proof (visible_count_none false s) as Hn.
  rewrite dangling_not_closed, Hs in Hn. simpl in Hn.
  destruct (Spec.visible_count false s) as [n|] eqn:E; [|discriminate].
  exists (Z.of_nat n). pose proof (visible_count_le _ _ _ E) as Hle.
  repeat split; unfold Py.len; try lia.
  now rewrite (visible_count_length _ _ _ E).
Qed.

Lemma length_bounds_witness :
  Spec.escapes_closed Examples.depth_tag_0 = true
  /\ exists v : Z,
       length Examples.depth_tag_0 = Returned v
       /\ 0 <= v <= Py.len Examples.depth_tag_0
       /\ 0 <= Py.len Examples.depth_tag_0 - v <= Py.len Examples.depth_tag_0
       /\ v = Py.len (Spec.visible false Examples.depth_tag_0).
Proof.
  split; [reflexivity | apply (length_bounds Examples.depth_tag_0); reflexivity].
Defined.

End VisibleLength.

(** ** The layout of a rendered frame *)
Section Layout.

Import FrameColorizer.

Lemma frame_args_no_block (self : t) :
  gdb.block (frame self) = Raised RuntimeError ->
  frame_args self = Returned EmptyString.
Proof. intros H. unfold frame_args. now rewrite H. Qed.

(** The rendering of a frame whose arguments segment is [args]. *)
Lemma str_cases (h : gdb.Host) (self : t) (args : string) :
  frame_args self = Returned args ->
  __str__ h self =
  match gdb.width h with
  | Some w =>
      if w <? Py.len (parts h self args)
      then Returned
             (part1 h self ++ part2 h self args ++ NL
                ++ Py.repeat " "
                     (Py.len (Spec.visible false (part1 h self)) - 1
                        - 3 * Py.int_of_bool (gdb.print_address h))
                ++ " at " ++ part3 self)
      else Returned (parts h self args)
  | None => Returned (parts h self args)
  end.
Proof.
  intros Hargs. unfold __str__, get_screen_width. rewrite Hargs. cbn [bind].
  destruct (gdb.width h) as [w|]; [|reflexivity].
  destruct (w <? Py.len (parts h self args)); [|reflexivity].
  now rewrite length_part1.
Qed.

(** C9: when the lookup of the frame's block raises RuntimeError (gdb
    has no current block), the arguments segment is the empty text, the
    error does not propagate, and the rendering of the frame returns. *)
Theorem block_lookup_failure_is_no_arguments (h : gdb.Host) (self : t) :
  gdb.block (frame self) = Raised RuntimeError ->
  frame_args self = Returned EmptyString
  /\ exists out : string, __str__ h self = Returned out.
Proof.
  intros Hblock. pose proof (frame_args_no_block self Hblock) as Hargs.
  split; [assumption|]. rewrite (str_cases h self _ Hargs).
  destruct (gdb.width h) as [w|]; [|eauto].
  destruct (w <? Py.len (parts h self "")); eauto.
Qed.

Lemma block_lookup_failure_is_no_arguments_witness :
  frame_args {| frame := Examples.long_name_frame; _depth := 0 |}
  = Returned EmptyString
  /\ exists out : string,
       __str__ Examples.narrow_host
         {| frame := Examples.long_name_frame; _depth := 0 |} = Returned out.
Proof.
  apply (block_lookup_failure_is_no_arguments Examples.narrow_host
           {| frame := Examples.long_name_frame; _depth := 0 |}).
  reflexivity.
Defined.

(** C1, as worded, fails: the first line of a wrapped frame holds the
    whole function segment, which a forty-column display does not
    bound. *)
Lemma wrapped_first_line_exceeds_width :
  ~ Stated.wrapped_below_width Examples.narrow_host
      {| frame := Examples.long_name_frame; _depth := 0 |}.
Proof.
  intros H.
  destruct (H 40 EmptyString eq_refl eq_refl eq_refl)
    as (out & measured & v & Hout & _ & _ & _ & Hv & Hlt).
  vm_compute in Hout. injection Hout as <-.
  vm_compute in Hv. injection Hv as <-. lia.
Qed.

(** C1, amended: when a display width is set and the raw length of the
    assembled line exceeds it, the rendering is the prefix followed by
    the function and arguments segment, one line feed, an indentation
    of the visible length of the prefix minus 1 (minus 3 more when the
    address is printed), " at " and the file and line segment.  The
    measured length of the prefix is that of its text without the colour
    sequences; and when the function, arguments and file segments hold
    no line feed, the rendering has exactly one, after the first line. *)
Theorem wrapped_layout (h : gdb.Host) (self : t) (w : Z) (args : string) :
  gdb.width h = Some w ->
  frame_args self = Returned args ->
  w < Py.len (parts h self args) ->
  exists (out : string) (measured : Z),
    __str__ h self = Returned out
    /\ length (part1 h self) = Returned measured
    /\ measured = Py.len (Spec.visible false (part1 h self))
    /\ out = part1 h self ++ part2 h self args ++ NL
               ++ Py.repeat " " (measured - 1 - 3 * Py.int_of_bool (gdb.print_address h))
               ++ " at " ++ part3 self
    /\ (Spec.has_char LF (function h self) = false ->
        Spec.has_char LF args = false ->
        Spec.has_char LF (filename self) = false ->
        Spec.count_char LF out = 1%nat
        /\ Spec.first_line out = part1 h self ++ part2 h self args).
Proof.
  intros Hw Hargs Hlong. rewrite (str_cases h self _ Hargs), Hw.
  apply Z.ltb_lt in Hlong. rewrite Hlong.
  eexists. exists (Py.len (Spec.visible false (part1 h self))).
  split; [reflexivity|]. split; [apply length_part1|].
  split; [reflexivity|]. split; [reflexivity|].
  intros Hf Ha Hfile.
  assert (H12 : Spec.has_char LF (part1 h self ++ part2 h self args) = false).
  { unfold part2. rewrite !has_char_app, part1_no_LF, Hf, Ha. reflexivity. }
  split.
  - rewrite <- append_assoc, count_char_app, (count_char_absent _ _ H12).
    unfold NL. change (String LF "" ++ ?x) with (String LF x).
    cbn [Spec.count_char]. rewrite Ascii.eqb_refl.
    rewrite count_char_app, count_char_absent.
    + rewrite count_char_absent; [reflexivity|].
      unfold part3. now rewrite !has_char_app, Hfile, line_no_LF.
    + apply (within_absent " "); [now apply within_repeat | reflexivity].
  - rewrite <- append_assoc. unfold NL.
    change (String LF "" ++ ?x) with (String LF x).
    now apply first_line_app.
Qed.

Lemma wrapped_layout_witness :
  exists (out : string) (measured : Z),
    __str__ Examples.narrow_host
      {| frame := Examples.long_name_frame; _depth := 0 |} = Returned out
    /\ length (part1 Examples.narrow_host
                 {| frame := Examples.long_name_frame; _depth := 0 |})
       = Returned measured
    /\ measured = Py.len (Spec.visible false
                          (part1 Examples.narrow_host
                             {| frame := Examples.long_name_frame; _depth := 0 |}))
    /\ out = part1 Examples.narrow_host
               {| frame := Examples.long_name_frame; _depth := 0 |}
             ++ part2 Examples.narrow_host
                  {| frame := Examples.long_name_frame; _depth := 0 |} EmptyString
             ++ NL
             ++ Py.repeat " "
                  (measured - 1
                     - 3 * Py.int_of_bool (gdb.print_address Examples.narrow_host))
             ++ " at "
             ++ part3 {| frame := Examples.long_name_frame; _depth := 0 |}
    /\ (Spec.has_char LF
          (function Examples.narrow_host
             {| frame := Examples.long_name_frame; _depth := 0 |}) = false ->
        Spec.has_char LF EmptyString = false ->
        Spec.has_char LF
          (filename {| frame := Examples.long_name_frame; _depth := 0 |}) = false ->
        Spec.count_char LF out = 1%nat
        /\ Spec.first_line out
           = part1 Examples.narrow_host
               {| frame := Examples.long_name_frame; _depth := 0 |}
             ++ part2 Examples.narrow_host
                  {| frame := Examples.long_name_frame; _depth := 0 |} EmptyString).
Proof.
  apply (wrapped_layout Examples.narrow_host
           {| frame := Examples.long_name_frame; _depth := 0 |} 40 EmptyString);
    reflexivity.
Defined.

(** C5, as worded, fails: without a display width the rendering is the
    assembly, and the assembly holds the line feeds of a value that gdb
    prints over several lines. *)
Lemma unwrapped_rendering_of_a_pretty_value_has_line_feeds :
  ~ Stated.unwrapped_single_line Examples.unlimited_host
      {| frame := Examples.pretty_frame; _depth := 0 |}.
Proof.
  intros H.
  destruct (H ("cfg=" ++ Examples.pretty_value ++ ", unused") eq_refl
              (or_introl eq_refl)) as [_ Hlf].
  vm_compute in Hlf. discriminate.
Qed.

(** C5, amended: when the display width is unavailable, or the raw
    length of the assembled line is at most the width, the rendering is
    the unwrapped assembly: depth, pad, the address and " in " when
    addresses are printed, function, the bracketed arguments, " at ",
    file and line.  No line feed is added: the rendering holds none when
    the function, arguments and file segments hold none. *)
Theorem unwrapped_layout (h : gdb.Host) (self : t) (args : string) :
  frame_args self = Returned args ->
  (gdb.width h = None
   \/ exists w, gdb.width h = Some w /\ Py.len (parts h self args) <= w) ->
  exists out : string,
    __str__ h self = Returned out
    /\ out = depth self
               ++ (if gdb.print_address h then "  " ++ address self ++ " in " else " ")
               ++ function h self ++ " " ++ String ESC "[1;37m(" ++ args ++ ")"
               ++ String ESC "[0m" ++ " at " ++ filename self ++ line self
    /\ (Spec.has_char LF (function h self) = false ->
        Spec.has_char LF args = false ->
        Spec.has_char LF (filename self) = false ->
        Spec.has_char LF out = false).
Proof.
  intros Hargs Hfit. exists (parts h self args).
  assert (Hstr : __str__ h self = Returned (parts h self args)).
  { rewrite (str_cases h self _ Hargs).
    destruct Hfit as [-> | (w & -> & Hle)]; [reflexivity|].
    apply Z.ltb_ge in Hle. now rewrite Hle. }
  split; [assumption|]. split.
  - unfold parts, part1, part2, part3.
    destruct (gdb.print_address h); rewrite !append_assoc; reflexivity.
  - intros Hf Ha Hfile. unfold parts, part2, part3.
    rewrite !has_char_app, part1_no_LF, Hf, Ha, Hfile, line_no_LF. reflexivity.
Qed.

Lemma unwrapped_layout_witness :
  exists out : string,
    __str__ Examples.unlimited_host
      {| frame := Examples.main_frame; _depth := 0 |} = Returned out
    /\ out = "" ++ String ESC "[1;37m#0  " ++ String ESC "[0m " ++ String ESC "[1;34mmain"
               ++ String ESC "[0m " ++ String ESC "[1;37m()" ++ String ESC "[0m at "
               ++ String ESC "[0;36mmain.c" ++ String ESC "[0m" ++ String ESC "[0;35m:3"
               ++ String ESC "[0m"
    /\ (Spec.has_char LF
          (function Examples.unlimited_host
             {| frame := Examples.main_frame; _depth := 0 |}) = false ->
        Spec.has_char LF EmptyString = false ->
        Spec.has_char LF (filename {| frame := Examples.main_frame; _depth := 0 |}) = false ->
        Spec.has_char LF out = false).
Proof.
  apply (unwrapped_layout Examples.unlimited_host
           {| frame := Examples.main_frame; _depth := 0 |} EmptyString);
    [reflexivity | left; reflexivity].
Defined.

End Layout.

(** ** Recovering a name from the nearest symbol *)
Section Resolution.

Import FrameColorizer.

(** [find] from the start locates the cut of the specification, and the
    slice up to it is the text before the marker. *)
Lemma search_before (sub s b : string) :
  Spec.before sub s = Some b ->
  Py.search s sub 0 = Some (String.length b)
  /\ substring 0 (String.length b) s = b
  /\ (String.length b <= String.length s)%nat.
Proof.
  revert b. induction s as [|c s IH]; intros b.
  - cbn [Spec.before Py.search].
    destruct (Py.startswith "" sub); [|discriminate].
    intros [= <-]. repeat split. simpl. lia.
  - cbn [Spec.before Py.search].
    destruct (Py.startswith (String c s) sub).
    + intros [= <-]. repeat split. simpl. lia.
    + destruct (Spec.before sub s) as [b'|]; [|discriminate].
      intros [= <-]. destruct (IH b' eq_refl) as (Hs & Hsub & Hle).
      rewrite Hs. simpl. rewrite Hsub. repeat split. lia.
Qed.

Lemma slice_to_find_before (sub s b : string) :
  Spec.before sub s = Some b -> Py.slice_to s (Py.find s sub 0) = b.
Proof.
  intros H. destruct (search_before _ _ _ H) as (Hs & Hsub & Hle).
  unfold Py.find, Py.slice_to. cbn [Z.ltb Z.compare Z.to_nat]. rewrite Hs.
  assert ((Z.of_nat (String.length b) <? 0) = false) as -> by (apply Z.ltb_ge; lia).
  unfold Py.len. rewrite Z.min_l by lia. now rewrite Nat2Z.id.
Qed.

Lemma rpartition_absent (sep : ascii) (s : string) :
  Spec.has_char sep s = false -> Py.rpartition s sep = None.
Proof.
  induction s as [|c s IH]; simpl; [reflexivity|].
  intros [Hc Hs]%orb_false_iff. now rewrite (IH Hs), Hc.
Qed.

(** C2, as worded, fails: the text before the last blank is "main +",
    so the plus sign stays, and the result carries the colour of a
    function name. *)
Lemma resolved_name_keeps_plus_sign :
  function (Examples.symbol_host "main + 16 in section .text of /bin/prog")
    {| frame := Examples.address_frame; _depth := 0 |}
  <> "main 0x10".
Proof. vm_compute. discriminate. Qed.

(** C2, amended: for the bare address 0x400000 and the nearest-symbol
    text "main + 16 in section .text of /bin/prog", resolution yields
    "main + 0x10" between the bright-blue marker and the reset: the text
    before the last blank, a blank, and the offset in hexadecimal. *)
Theorem resolved_name_with_offset (h : gdb.Host) (self : t) :
  FrameDecorator.function (frame self) = gdb.FuncAddr 4194304 ->
  gdb.execute h "info symbol 0x0000000000400000"
  = "main + 16 in section .text of /bin/prog" ->
  function h self = String ESC "[1;34mmain + 0x10" ++ String ESC "[0m".
Proof.
  intros Hf Hsym. unfold function. rewrite Hf.
  change ("info symbol 0x" ++ Py.fmt_016x 4194304)
    with "info symbol 0x0000000000400000".
  rewrite Hsym. reflexivity.
Qed.

Lemma resolved_name_with_offset_witness :
  function (Examples.symbol_host "main + 16 in section .text of /bin/prog")
    {| frame := Examples.address_frame; _depth := 0 |}
  = String ESC "[1;34mmain + 0x10" ++ String ESC "[0m".
Proof.
  apply (resolved_name_with_offset
           (Examples.symbol_host "main + 16 in section .text of /bin/prog")
           {| frame := Examples.address_frame; _depth := 0 |});
    reflexivity.
Defined.

(** C7: for a bare numeric address, when the nearest-symbol text cut at
    "in section" and trimmed holds no blank, hence no separable offset,
    resolution returns that name verbatim: no offset and no colour is
    added. *)
Theorem resolved_name_without_offset
  (h : gdb.Host) (self : t) (pc : Z) (symbol cut : string) :
  FrameDecorator.function (frame self) = gdb.FuncAddr pc ->
  gdb.execute h ("info symbol 0x" ++ Py.fmt_016x pc) = symbol ->
  Spec.before "in section" symbol = Some cut ->
  Spec.has_char " " (Py.strip cut) = false ->
  function h self = Py.strip cut.
Proof.
  intros Hf Hsym Hcut Hblank. unfold function. rewrite Hf, Hsym.
  rewrite (slice_to_find_before _ _ _ Hcut).
  unfold Py.rsplit1. now rewrite (rpartition_absent _ _ Hblank).
Qed.

Lemma resolved_name_without_offset_witness :
  function (Examples.symbol_host "main in section .text of /bin/prog")
    {| frame := Examples.address_frame; _depth := 0 |}
  = "main".
Proof.
  apply (resolved_name_without_offset
           (Examples.symbol_host "main in section .text of /bin/prog")
           {| frame := Examples.address_frame; _depth := 0 |}
           4194304 "main in section .text of /bin/prog" "main ");
    reflexivity.
Defined.

(** A nearest-symbol text without the marker: [find] answers [-1], and
    the slice up to [-1] leaves out the last character. *)
Example resolution_without_marker :
  function (Examples.symbol_host "main")
    {| frame := Examples.address_frame; _depth := 0 |} = "mai".
Proof. reflexivity. Qed.

End Resolution.

(** ** The arguments segment *)
Section Arguments.

Import FrameColorizer.

(** Induction along the chain of enclosing blocks. *)
Lemma block_chain_ind (P : gdb.Block -> Prop) :
  (forall f syms, P (gdb.mkBlock f syms None)) ->
  (forall f syms up, P up -> P (gdb.mkBlock f syms (Some up))) ->
  forall b, P b.
Proof.
  intros Hlast Hup. fix IH 1.
  intros [f syms [up|]]; [apply Hup, IH | apply Hlast].
Qed.

(** The walk stops at the innermost block that has a function, and
    passes only blocks that have none. *)
Lemma function_block_innermost (b b' : gdb.Block) :
  function_block b = Some b' ->
  Spec.encloses b b' /\ gdb.function b' <> None.
Proof.
  revert b'. induction b as [f syms|f syms up IH] using block_chain_ind;
    intros b'; destruct f as [name|]; cbn [function_block];
    try discriminate; try (intros [= <-]; split; [constructor | discriminate]).
  intros H. destruct (IH _ H) as [He Hf]. split; [|assumption].
  now constructor.
Qed.

Lemma function_block_none (b b' : gdb.Block) :
  function_block b = None -> Spec.encloses b b' -> gdb.function b' = None.
Proof.
  intros Hnone He. induction He as [b|syms up b' He IH].
  - destruct b as [[name|] syms [up|]]; cbn [function_block] in Hnone;
      try discriminate; reflexivity.
  - apply IH. exact Hnone.
Qed.

(** The loop appends one rendering per argument symbol, in order. *)
Lemma collect_args_map (syms : list gdb.Symbol) :
  forall args : list string,
    forallb (fun sym => implb (gdb.is_argument sym) (Spec.evaluates sym)) syms = true ->
    collect_args syms args =
    Returned
      (args ++ map (fun sym => Spec.argument (gdb.name sym) (Spec.value_text sym))
                   (List.filter gdb.is_argument syms))%list.
Proof.
  induction syms as [|sym rest IH]; intros args Hall; cbn [collect_args].
  - simpl. now rewrite List.app_nil_r.
  - cbn [forallb] in Hall. apply andb_true_iff in Hall as [Hsym Hrest].
    cbn [List.filter]. destruct (gdb.is_argument sym); cbn [negb].
    + unfold Spec.evaluates in Hsym.
      destruct (gdb.value sym) as [v| |] eqn:Ev; try discriminate.
      cbn [bind map]. rewrite (IH _ Hrest), <- List.app_assoc.
      unfold Spec.value_text at 2. rewrite Ev. reflexivity.
    + now apply IH.
Qed.

(** C8: each argument symbol of the selected block is rendered as its
    bare name when its value is the empty text and as name=value
    otherwise, and the arguments segment joins these renderings, in
    order, with a comma and a blank. *)
Theorem frame_args_renders_arguments (self : t) (innermost selected : gdb.Block) :
  gdb.block (frame self) = Returned innermost ->
  function_block innermost = Some selected ->
  forallb (fun sym => implb (gdb.is_argument sym) (Spec.evaluates sym))
          (gdb.symbols selected) = true ->
  frame_args self =
  Returned
    (Py.join ", "
       (map (fun sym => Spec.argument (gdb.name sym) (Spec.value_text sym))
            (List.filter gdb.is_argument (gdb.symbols selected))))
  /\ (forall name, Spec.argument name EmptyString = name)
  /\ (forall name value,
        value <> EmptyString -> Spec.argument name value = name ++ "=" ++ value).
Proof.
  intros Hblock Hsel Hall. split; [|split].
  - unfold frame_args. rewrite Hblock. cbn [bind].
    rewrite Hsel, (collect_args_map _ [] Hall). reflexivity.
  - reflexivity.
  - intros name [|c value] Hne; [congruence | reflexivity].
Qed.

Lemma frame_args_renders_arguments_witness :
  frame_args {| frame := Examples.pretty_frame; _depth := 0 |}
  = Returned ("cfg=" ++ Examples.pretty_value ++ ", unused")
  /\ (forall name, Spec.argument name EmptyString = name)
  /\ (forall name value,
        value <> EmptyString -> Spec.argument name value = name ++ "=" ++ value).
Proof.
  apply (frame_args_renders_arguments
           {| frame := Examples.pretty_frame; _depth := 0 |}
           (gdb.mkBlock None
              [ {| gdb.name := "i"; gdb.is_argument := false;
                   gdb.value := Returned "0" |} ]
              (Some
                 (gdb.mkBlock (Some "run")
                    [ {| gdb.name := "cfg"; gdb.is_argument := true;
                         gdb.value := Returned Examples.pretty_value |};
                      {| gdb.name := "unused"; gdb.is_argument := true;
                         gdb.value := Returned EmptyString |};
                      {| gdb.name := "rc"; gdb.is_argument := false;
                         gdb.value := Returned "0" |} ]
                    None)))
           (gdb.mkBlock (Some "run")
              [ {| gdb.name := "cfg"; gdb.is_argument := true;
                   gdb.value := Returned Examples.pretty_value |};
                {| gdb.name := "unused"; gdb.is_argument := true;
                   gdb.value := Returned EmptyString |};
                {| gdb.name := "rc"; gdb.is_argument := false;
                   gdb.value := Returned "0" |} ]
              None));
    reflexivity.
Defined.

End Arguments.

(** ** Printing the stack once *)
Section Consumption.

Import FrameColorizer.

(** A rendering starts with the depth tag of its frame. *)
Lemma str_starts_with_depth (h : gdb.Host) (self : t) (out : string) :
  __str__ h self = Returned out -> exists rest, out = depth self ++ rest.
Proof.
  unfold __str__. destruct (frame_args self) as [args| |]; try discriminate.
  cbn [bind]. unfold get_screen_width.
  assert (Hp : exists r, part1 h self = depth self ++ r)
    by (unfold part1; destruct (gdb.print_address h); eauto).
  destruct Hp as [r Hr].
  destruct (gdb.width h) as [w|].
  - destruct (w <? Py.len (parts h self args)).
    + rewrite length_part1. cbn [bind]. intros [= <-].
      rewrite Hr, append_assoc. eauto.
    + intros [= <-]. unfold parts. rewrite Hr, append_assoc. eauto.
  - intros [= <-]. unfold parts. rewrite Hr, append_assoc. eauto.
Qed.

(** Draining the generator renders every frame left, in order, and
    leaves the generator empty. *)
Lemma drain_rendered (h : gdb.Host) (frames : list gdb.Frame) :
  forall (ix : Z) (texts out : list string),
    Spec.rendered h ix frames texts ->
    FilterProxy.drain h frames ix out =
    (Returned (out ++ texts)%list,
     {| FilterProxy.frames := [];
        FilterProxy.ix := ix + Z.of_nat (List.length frames) |}).
Proof.
  induction frames as [|frame frames IH]; intros ix texts out;
    destruct texts as [|text texts]; cbn [Spec.rendered]; try contradiction.
  - intros _. cbn [FilterProxy.drain List.length]. rewrite List.app_nil_r.
    do 2 f_equal. lia.
  - intros [Hstr Hrest]. cbn [FilterProxy.drain]. rewrite Hstr.
    rewrite (IH _ _ _ Hrest), <- List.app_assoc. cbn [List.length app].
    do 2 f_equal. lia.
Qed.

(** Once the generator is empty, a pass prints the join of nothing. *)
Lemma next_exhausted (h : gdb.Host) (ix : Z) (stdout : string) :
  FilterProxy.next h {| FilterProxy.frames := []; FilterProxy.ix := ix |} stdout
  = (Raised StopIteration, {| FilterProxy.frames := []; FilterProxy.ix := ix |},
     stdout ++ NL).
Proof. reflexivity. Qed.

(** C6, as worded, fails: the second pass prints the join of no entry,
    and [print] ends it with a line feed. *)
Lemma second_pass_prints_an_empty_line :
  ~ Stated.second_pass_silent Examples.narrow_host
      Examples.main_frame Examples.long_name_frame Examples.pretty_frame.
Proof.
  intros H. destruct (H _ _ _ eq_refl eq_refl eq_refl) as (proxy' & H1 & H2).
  vm_compute in H1. injection H1 as <-.
  vm_compute in H2. discriminate.
Qed.

(** C6, amended: consuming the wrapped sequence of three frames once
    prints one block, the three renderings in the order supplied and
    joined by line feeds, tagged with the depths 0, 1 and 2, and then
    signals completion.  Consuming the same object again prints no
    entry, only an empty line, and signals completion at once. *)
Theorem three_frames_printed_once
  (h : gdb.Host) (f0 f1 f2 : gdb.Frame) (r0 r1 r2 stdout : string) :
  __str__ h {| frame := f0; _depth := 0 |} = Returned r0 ->
  __str__ h {| frame := f1; _depth := 1 |} = Returned r1 ->
  __str__ h {| frame := f2; _depth := 2 |} = Returned r2 ->
  let proxy := FilterProxy.__iter__ (ColourFilter.filter [f0; f1; f2]) in
  let printed := stdout ++ (r0 ++ NL ++ r1 ++ NL ++ r2) ++ NL in
  exists proxy',
    FilterProxy.next h proxy stdout = (Raised StopIteration, proxy', printed)
    /\ FilterProxy.next h (FilterProxy.__iter__ proxy') printed
       = (Raised StopIteration, proxy', printed ++ NL)
    /\ (exists t0 t1 t2,
           r0 = (String ESC "[1;37m#0  " ++ String ESC "[0m") ++ t0
           /\ r1 = (String ESC "[1;37m#1  " ++ String ESC "[0m") ++ t1
           /\ r2 = (String ESC "[1;37m#2  " ++ String ESC "[0m") ++ t2).
Proof.
  intros H0 H1 H2 proxy printed.
  exists {| FilterProxy.frames := []; FilterProxy.ix := 3 |}.
  split; [|split].
  - unfold FilterProxy.next, FilterProxy.unroll_stack, proxy.
    cbn [FilterProxy.__iter__ ColourFilter.filter FilterProxy.init
         FilterProxy.frames FilterProxy.ix].
    rewrite (drain_rendered h [f0; f1; f2] 0 [r0; r1; r2] []
               (conj H0 (conj H1 (conj H2 I)))).
    reflexivity.
  - apply next_exhausted.
  - destruct (str_starts_with_depth _ _ _ H0) as [t0 E0].
    destruct (str_starts_with_depth _ _ _ H1) as [t1 E1].
    destruct (str_starts_with_depth _ _ _ H2) as [t2 E2].
    exists t0, t1, t2. repeat split; assumption.
Qed.

Lemma three_frames_printed_once_witness :
  exists r0 r1 r2 proxy',
    FilterProxy.next Examples.narrow_host
      (FilterProxy.__iter__
         (ColourFilter.filter
            [Examples.main_frame; Examples.long_name_frame; Examples.pretty_frame]))
      EmptyString
    = (Raised StopIteration, proxy', (r0 ++ NL ++ r1 ++ NL ++ r2) ++ NL)
    /\ FilterProxy.next Examples.narrow_host (FilterProxy.__iter__ proxy')
         ((r0 ++ NL ++ r1 ++ NL ++ r2) ++ NL)
       = (Raised StopIteration, proxy', ((r0 ++ NL ++ r1 ++ NL ++ r2) ++ NL) ++ NL)
    /\ (exists t0 t1 t2,
           r0 = (String ESC "[1;37m#0  " ++ String ESC "[0m") ++ t0
           /\ r1 = (String ESC "[1;37m#1  " ++ String ESC "[0m") ++ t1
           /\ r2 = (String ESC "[1;37m#2  " ++ String ESC "[0m") ++ t2).
Proof.
  do 3 eexists.
  apply (three_frames_printed_once Examples.narrow_host
           Examples.main_frame Examples.long_name_frame Examples.pretty_frame
           _ _ _ EmptyString);
    vm_compute; reflexivity.
Defined.

End Consumption.

(** * Further properties of the code *)

(** ** More on the measured length *)
Section LengthAlgebra.

Import FrameColorizer.

(** X1: a text without the marker ESC, the empty text included, is
    measured at its raw length. *)
Theorem length_plain_text (s : string) :
  Spec.has_char ESC s = false -> length s = Returned (Py.len s).
Proof.
  intros Hs. rewrite length_scan.
  pose proof (visible_count_plain s "" Hs) as Hv. rewrite append_nil_r in Hv.
  rewrite Hv. cbn [Spec.visible_count option_map]. f_equal. unfold Py.len. lia.
Qed.

Lemma length_plain_text_witness :
  length "#0   main () at main.c:3" = Returned 24 /\ length "" = Returned 0.
Proof.
  split.
  - apply (length_plain_text "#0   main () at main.c:3"). reflexivity.
  - apply (length_plain_text ""). reflexivity.
Defined.

(** X2: measuring is additive: when the first text is measured at [va],
    the concatenation is measured at [va] plus the measure of the second
    text, and fails exactly when the second text fails. *)
Theorem length_concatenation (a b : string) (va : Z) :
  length a = Returned va ->
  length (a ++ b) = (vb <- length b ;; Returned (va + vb)).
Proof.
  intros Ha. destruct (length_returned_count _ _ Ha) as (n & Hn & ->).
  rewrite (length_scan (a ++ b)), (length_scan b), (visible_count_append a b false n Hn).
  destruct (Spec.visible_count false b) as [m|]; cbn [option_map bind]; [|reflexivity].
  f_equal. lia.
Qed.

Lemma length_concatenation_witness :
  length (Examples.depth_tag_0 ++ Examples.depth_tag_0) = Returned 8
  /\ length (Examples.depth_tag_0 ++ Examples.open_sequence) = Raised NameError.
Proof.
  split.
  - apply (length_concatenation Examples.depth_tag_0 Examples.depth_tag_0 4). reflexivity.
  - apply (length_concatenation Examples.depth_tag_0 Examples.open_sequence 4). reflexivity.
Defined.

(** X3: the loop of [length] ends on every text: after at most one round
    more than the text has characters it has returned a length within the
    raw length or raised NameError, and further rounds of fuel change
    nothing. *)
Theorem length_terminates (s : string) (fuel : nat) :
  (String.length s < fuel)%nat ->
  length_loop fuel s 0 0 = length s
  /\ ((exists v, length s = Returned v /\ 0 <= v <= Py.len s)
      \/ length s = Raised NameError).
Proof.
  intros Hfuel. split; [now apply length_loop_enough|].
  rewrite length_scan.
  destruct (Spec.visible_count false s) as [n|] eqn:E; [left | now right].
  exists (Z.of_nat n). split; [reflexivity|].
  pose proof (visible_count_le _ _ _ E). unfold Py.len. lia.
Qed.

Lemma length_terminates_witness :
  length_loop 100 Examples.depth_tag_0 0 0 = length Examples.depth_tag_0
  /\ ((exists v, length Examples.depth_tag_0 = Returned v
                 /\ 0 <= v <= Py.len Examples.depth_tag_0)
      \/ length Examples.depth_tag_0 = Raised NameError).
Proof.
  apply (length_terminates Examples.depth_tag_0 100). vm_compute. lia.
Defined.

End LengthAlgebra.

(** ** More on the layout *)
Section LayoutBounds.

Import FrameColorizer.

Lemma len_repeat (x : ascii) (n : Z) :
  Py.len (Py.repeat (String x "") n) = Z.max 0 n.
Proof.
  unfold Py.repeat, Py.len.
  assert (H : forall k, String.length (String.concat "" (List.repeat (String x "") k)) = k).
  { induction k as [|k IH]; [reflexivity|]. cbn [List.repeat String.concat].
    destruct (List.repeat (String x "") k) eqn:E.
    - destruct k; [reflexivity | discriminate].
    - cbn [append String.length]. cbn [append] in IH. now rewrite IH. }
  rewrite H. lia.
Qed.

Lemma len_fmt_ljust3_d (n : Z) :
  Py.len (Py.fmt_ljust3_d n) = Z.max 3 (Py.len (Py.fmt_d n)).
Proof. unfold Py.fmt_ljust3_d. rewrite len_app, len_repeat. lia. Qed.

Lemma len_fmt_016x (n : Z) : 16 <= Py.len (Py.fmt_016x n).
Proof.
  unfold Py.fmt_016x. rewrite !len_app, len_repeat.
  pose proof (len_nonneg (Py.hex_digits (Z.abs n))). lia.
Qed.

(** Depths below one thousand fill the three columns exactly. *)
Lemma len_fmt_ljust3_d_small (n : Z) :
  0 <= n < 1000 -> Py.len (Py.fmt_ljust3_d n) = 3.
Proof.
  intros Hn.
  assert (Hall : forallb (fun k => Py.len (Py.fmt_ljust3_d (Z.of_nat k)) =? 3)
                         (seq 0 1000) = true) by (vm_compute; reflexivity).
  rewrite forallb_forall in Hall.
  specialize (Hall (Z.to_nat n)). rewrite Z2Nat.id in Hall by lia.
  apply Z.eqb_eq, Hall, in_seq. lia.
Qed.

Lemma len_depth (self : t) :
  Py.len (depth self) = 12 + Py.len (Py.fmt_ljust3_d (_depth self)).
Proof.
  unfold depth. rewrite !len_app.
  change (Py.len (String ESC "[1;37m#")) with 8.
  change (Py.len (String ESC "[0m")) with 4. lia.
Qed.

Lemma len_address (self : t) :
  Py.len (address self) = 13 + Py.len (Py.fmt_016x (FrameDecorator.address (frame self))).
Proof.
  unfold address. rewrite !len_app.
  change (Py.len (String ESC "[1;30m0x")) with 9.
  change (Py.len (String ESC "[0m")) with 4. lia.
Qed.

Lemma len_visible_part1 (h : gdb.Host) (self : t) :
  Py.len (Spec.visible false (part1 h self)) =
  if gdb.print_address h
  then Py.len (Py.fmt_ljust3_d (_depth self))
       + Py.len (Py.fmt_016x (FrameDecorator.address (frame self))) + 9
  else Py.len (Py.fmt_ljust3_d (_depth self)) + 2.
Proof.
  rewrite visible_part1.
  destruct (gdb.print_address h); rewrite !len_app;
    change (Py.len "#") with 1; change (Py.len "  0x") with 4;
    change (Py.len " in ") with 4; change (Py.len " ") with 1; lia.
Qed.

(** X4: measuring the prefix never fails, whatever the depth and the
    address: [length] returns the number of its visible characters, the
    hash sign, the padded depth and the blank, or with addresses the two
    blanks, "0x", the padded address and " in ".  The unbound name of the
    fallback is out of reach of [__str__]. *)
Theorem prefix_length (h : gdb.Host) (self : t) :
  length (part1 h self) =
  Returned
    (if gdb.print_address h
     then 1 + Py.len (Py.fmt_ljust3_d (_depth self)) + 4
          + Py.len (Py.fmt_016x (FrameDecorator.address (frame self))) + 4
     else 1 + Py.len (Py.fmt_ljust3_d (_depth self)) + 1).
Proof.
  rewrite length_part1, len_visible_part1. f_equal.
  destruct (gdb.print_address h); lia.
Qed.

(** X5: a rendering fails only through its arguments: [__str__] returns
    whenever [frame_args] returns, and raises an exception exactly when
    [frame_args] raises it. *)
Theorem str_fails_only_through_arguments (h : gdb.Host) (self : t) :
  (forall args, frame_args self = Returned args ->
                exists out, __str__ h self = Returned out)
  /\ (forall e, __str__ h self = Raised e <-> frame_args self = Raised e).
Proof.
  split.
  - intros args Hargs. rewrite (str_cases h self _ Hargs).
    destruct (gdb.width h) as [w|]; [|eauto].
    destruct (w <? Py.len (parts h self args)); eauto.
  - intros e. destruct (frame_args self) as [args| e' |] eqn:Hargs.
    + rewrite (str_cases h self _ Hargs).
      destruct (gdb.width h) as [w|];
        [destruct (w <? Py.len (parts h self args))|]; split; discriminate.
    + unfold __str__. rewrite Hargs. reflexivity.
    + unfold __str__. rewrite Hargs. split; discriminate.
Qed.

Lemma str_fails_only_through_arguments_witness :
  __str__ Examples.narrow_host {| frame := Examples.failing_frame; _depth := 0 |}
  = Raised GdbError
  /\ exists out,
       __str__ Examples.narrow_host {| frame := Examples.main_frame; _depth := 0 |}
       = Returned out.
Proof.
  split.
  - apply (proj2 (str_fails_only_through_arguments Examples.narrow_host
                    {| frame := Examples.failing_frame; _depth := 0 |})).
    reflexivity.
  - apply (proj1 (str_fails_only_through_arguments Examples.narrow_host
                    {| frame := Examples.main_frame; _depth := 0 |}) EmptyString).
    reflexivity.
Defined.

(** X6: the second line of a wrapped rendering is never flush left: the
    indentation is the width of the padded depth plus 1, at least 4 and
    exactly 4 for depths 0 to 999; with addresses it is the widths of the
    padded depth and of the padded address plus 5, at least 24. *)
Theorem wrapped_indentation (h : gdb.Host) (self : t) (w : Z) (args : string) :
  gdb.width h = Some w ->
  frame_args self = Returned args ->
  w < Py.len (parts h self args) ->
  exists k : Z,
    __str__ h self =
    Returned (part1 h self ++ part2 h self args ++ NL
                ++ Py.repeat " " k ++ " at " ++ part3 self)
    /\ Py.len (Py.repeat " " k) = k
    /\ k = (if gdb.print_address h
            then Py.len (Py.fmt_ljust3_d (_depth self))
                 + Py.len (Py.fmt_016x (FrameDecorator.address (frame self))) + 5
            else Py.len (Py.fmt_ljust3_d (_depth self)) + 1)
    /\ (if gdb.print_address h then 24 else 4) <= k
    /\ (gdb.print_address h = false -> 0 <= _depth self < 1000 -> k = 4).
Proof.
  intros Hw Hargs Hlong. rewrite (str_cases h self _ Hargs), Hw.
  apply Z.ltb_lt in Hlong. rewrite Hlong. eexists. split; [reflexivity|].
  rewrite len_visible_part1, len_repeat.
  pose proof (len_fmt_ljust3_d (_depth self)) as Hd.
  pose proof (len_fmt_016x (FrameDecorator.address (frame self))) as Ha.
  destruct (gdb.print_address h) eqn:Hp; cbn [Py.int_of_bool];
    repeat split; try lia; try discriminate.
  intros _ Hsmall. rewrite (len_fmt_ljust3_d_small _ Hsmall). lia.
Qed.

Lemma wrapped_indentation_witness :
  exists k : Z,
    __str__ Examples.narrow_host {| frame := Examples.long_name_frame; _depth := 0 |} =
    Returned (part1 Examples.narrow_host {| frame := Examples.long_name_frame; _depth := 0 |}
                ++ part2 Examples.narrow_host
                     {| frame := Examples.long_name_frame; _depth := 0 |} EmptyString
                ++ NL ++ Py.repeat " " k ++ " at "
                ++ part3 {| frame := Examples.long_name_frame; _depth := 0 |})
    /\ Py.len (Py.repeat " " k) = k
    /\ k = 3 + 1
    /\ 4 <= k
    /\ (false = false -> 0 <= 0 < 1000 -> k = 4).
Proof.
  apply (wrapped_indentation Examples.narrow_host
           {| frame := Examples.long_name_frame; _depth := 0 |} 40 EmptyString);
    reflexivity.
Defined.

(** The raw length of the assembled line: the colour sequences and the
    fixed texts alone take 45 characters, 79 with addresses. *)
Lemma len_parts_lower_bound (h : gdb.Host) (self : t) (args : string) :
  (if gdb.print_address h then 79 else 45) + Py.len (function h self)
  <= Py.len (parts h self args).
Proof.
  unfold parts, part1, part2, part3, filename.
  pose proof (len_fmt_ljust3_d (_depth self)) as Hd.
  pose proof (len_fmt_016x (FrameDecorator.address (frame self))) as Ha.
  pose proof (len_nonneg args). pose proof (len_nonneg (line self)).
  pose proof (len_nonneg (Py.fmt_s (FrameDecorator.filename (frame self)))).
  destruct (gdb.print_address h); rewrite !len_app, len_depth, ?len_address;
    change (Py.len "  ") with 2; change (Py.len " in ") with 4;
    change (Py.len " ") with 1; change (Py.len ")") with 1;
    change (Py.len " at ") with 4;
    change (Py.len (String ESC "[1;37m(")) with 8;
    change (Py.len (String ESC "[0;36m")) with 7;
    change (Py.len (String ESC "[0m")) with 4; lia.
Qed.

(** X7: the test for wrapping counts the colour sequences too: a frame
    is wrapped on every display narrower than 45 columns plus the raw
    length of the function segment (79 plus that length when addresses
    are printed), however short its visible text. *)
Theorem narrow_display_always_wraps (h : gdb.Host) (self : t) (w : Z) (args : string) :
  gdb.width h = Some w ->
  frame_args self = Returned args ->
  w < (if gdb.print_address h then 79 else 45) + Py.len (function h self) ->
  w < Py.len (parts h self args)
  /\ exists k : Z,
       __str__ h self =
       Returned (part1 h self ++ part2 h self args ++ NL
                   ++ Py.repeat " " k ++ " at " ++ part3 self).
Proof.
  intros Hw Hargs Hnarrow.
  pose proof (len_parts_lower_bound h self args) as Hlow.
  assert (Hlong : w < Py.len (parts h self args)) by lia.
  split; [assumption|]. rewrite (str_cases h self _ Hargs), Hw.
  apply Z.ltb_lt in Hlong. rewrite Hlong. eauto.
Qed.

Lemma narrow_display_always_wraps_witness :
  80 < Py.len (parts (Examples.symbol_host EmptyString)
                 {| frame := Examples.main_frame; _depth := 0 |} EmptyString)
  /\ exists k : Z,
       __str__ (Examples.symbol_host EmptyString)
         {| frame := Examples.main_frame; _depth := 0 |} =
       Returned (part1 (Examples.symbol_host EmptyString)
                   {| frame := Examples.main_frame; _depth := 0 |}
                   ++ part2 (Examples.symbol_host EmptyString)
                        {| frame := Examples.main_frame; _depth := 0 |} EmptyString
                   ++ NL ++ Py.repeat " " k ++ " at "
                   ++ part3 {| frame := Examples.main_frame; _depth := 0 |}).
Proof.
  apply (narrow_display_always_wraps (Examples.symbol_host EmptyString)
           {| frame := Examples.main_frame; _depth := 0 |} 80 EmptyString);
    reflexivity.
Defined.

End LayoutBounds.

(** ** More on the arguments segment *)
Section ArgumentFailures.

Import FrameColorizer.

Lemma function_block_absent (b : gdb.Block) :
  (forall b', Spec.encloses b b' -> gdb.function b' = None) ->
  function_block b = None.
Proof.
  intros Hnone. destruct (function_block b) as [b'|] eqn:E; [|reflexivity].
  destruct (function_block_innermost _ _ E) as [He Hf].
  now destruct (Hf (Hnone _ He)).
Qed.

(** X8: when neither the block of the frame nor any block enclosing it
    belongs to a function, the arguments segment is empty, whatever
    symbols those blocks hold; none of them is evaluated. *)
Theorem frame_args_without_function (self : t) (innermost : gdb.Block) :
  gdb.block (frame self) = Returned innermost ->
  (forall b, Spec.encloses innermost b -> gdb.function b = None) ->
  frame_args self = Returned EmptyString.
Proof.
  intros Hblock Hnone. unfold frame_args. rewrite Hblock. cbn [bind].
  now rewrite (function_block_absent _ Hnone).
Qed.

Lemma frame_args_without_function_witness :
  frame_args {| frame := Examples.no_function_frame; _depth := 0 |}
  = Returned EmptyString.
Proof.
  apply (frame_args_without_function
           {| frame := Examples.no_function_frame; _depth := 0 |}
           (gdb.mkBlock None
              [ {| gdb.name := "x"; gdb.is_argument := true;
                   gdb.value := Returned "1" |} ]
              (Some (gdb.mkBlock None [] None))));
    [reflexivity|].
  intros b Hb. inversion Hb as [|syms up b' Hup]; subst; [reflexivity|].
  inversion Hup; subst. reflexivity.
Defined.

(** The loop stops at the first argument whose evaluation raises. *)
Lemma collect_args_raises (before : list gdb.Symbol) :
  forall (sym : gdb.Symbol) (after : list gdb.Symbol) (args : list string) (e : exn),
    forallb (fun s => implb (gdb.is_argument s) (Spec.evaluates s)) before = true ->
    gdb.is_argument sym = true ->
    gdb.value sym = Raised e ->
    collect_args (before ++ sym :: after) args = Raised e.
Proof.
  induction before as [|s before IH]; intros sym after args e Hall Harg Hval.
  - cbn [app collect_args]. now rewrite Harg, Hval.
  - cbn [forallb] in Hall. apply andb_true_iff in Hall as [Hs Hrest].
    cbn [app collect_args]. destruct (gdb.is_argument s); cbn [negb].
    + unfold Spec.evaluates in Hs.
      destruct (gdb.value s) as [v| |]; try discriminate.
      cbn [bind]. now apply IH.
    + now apply IH.
Qed.

(** X9: the first argument of the selected block whose evaluation raises
    aborts the rendering: [frame_args] and [__str__] raise its exception.
    Symbols that are no arguments are not evaluated, and what follows the
    failing argument is not reached. *)
Theorem first_failing_argument_aborts
  (h : gdb.Host) (self : t) (innermost selected : gdb.Block)
  (before after : list gdb.Symbol) (sym : gdb.Symbol) (e : exn) :
  gdb.block (frame self) = Returned innermost ->
  function_block innermost = Some selected ->
  gdb.symbols selected = (before ++ sym :: after)%list ->
  forallb (fun s => implb (gdb.is_argument s) (Spec.evaluates s)) before = true ->
  gdb.is_argument sym = true ->
  gdb.value sym = Raised e ->
  frame_args self = Raised e /\ __str__ h self = Raised e.
Proof.
  intros Hblock Hsel Hsyms Hall Harg Hval.
  assert (Hargs : frame_args self = Raised e).
  { unfold frame_args. rewrite Hblock. cbn [bind].
    now rewrite Hsel, Hsyms, (collect_args_raises _ _ _ _ _ Hall Harg Hval). }
  split; [assumption|]. unfold __str__. now rewrite Hargs.
Qed.

Lemma first_failing_argument_aborts_witness :
  frame_args {| frame := Examples.failing_frame; _depth := 0 |} = Raised GdbError
  /\ __str__ Examples.unlimited_host
       {| frame := Examples.failing_frame; _depth := 0 |} = Raised GdbError.
Proof.
  apply (first_failing_argument_aborts Examples.unlimited_host
           {| frame := Examples.failing_frame; _depth := 0 |}
           (gdb.mkBlock (Some "load")
              [ {| gdb.name := "tmp"; gdb.is_argument := false;
                   gdb.value := Raised GdbError |};
                {| gdb.name := "path"; gdb.is_argument := true;
                   gdb.value := Returned "0x0" |};
                {| gdb.name := "buf"; gdb.is_argument := true;
                   gdb.value := Raised GdbError |};
                {| gdb.name := "n"; gdb.is_argument := true;
                   gdb.value := Returned "4" |} ]
              None)
           (gdb.mkBlock (Some "load")
              [ {| gdb.name := "tmp"; gdb.is_argument := false;
                   gdb.value := Raised GdbError |};
                {| gdb.name := "path"; gdb.is_argument := true;
                   gdb.value := Returned "0x0" |};
                {| gdb.name := "buf"; gdb.is_argument := true;
                   gdb.value := Raised GdbError |};
                {| gdb.name := "n"; gdb.is_argument := true;
                   gdb.value := Returned "4" |} ]
              None)
           [ {| gdb.name := "tmp"; gdb.is_argument := false;
                gdb.value := Raised GdbError |};
             {| gdb.name := "path"; gdb.is_argument := true;
                gdb.value := Returned "0x0" |} ]
           [ {| gdb.name := "n"; gdb.is_argument := true;
                gdb.value := Returned "4" |} ]
           {| gdb.name := "buf"; gdb.is_argument := true;
              gdb.value := Raised GdbError |}
           GdbError);
    reflexivity.
Defined.

(** X10: the handler of the block lookup catches [RuntimeError] and what
    derives from it, [gdb.error] included, and nothing else: any other
    exception of the lookup leaves [frame_args] and aborts [__str__]. *)
Theorem block_lookup_exception (h : gdb.Host) (self : t) (e : exn) :
  gdb.block (frame self) = Raised e ->
  (is_RuntimeError e = true ->
   frame_args self = Returned EmptyString
   /\ exists out, __str__ h self = Returned out)
  /\ (is_RuntimeError e = false ->
      frame_args self = Raised e /\ __str__ h self = Raised e).
Proof.
  intros Hblock. split; intros He.
  - assert (Hargs : frame_args self = Returned EmptyString)
      by (unfold frame_args; now rewrite Hblock, He).
    split; [assumption|]. rewrite (str_cases h self _ Hargs).
    destruct (gdb.width h) as [w|]; [|eauto].
    destruct (w <? Py.len (parts h self "")); eauto.
  - assert (Hargs : frame_args self = Raised e)
      by (unfold frame_args; now rewrite Hblock, He).
    split; [assumption|]. unfold __str__. now rewrite Hargs.
Qed.

Lemma block_lookup_exception_witness :
  frame_args {| frame := Examples.broken_frame; _depth := 0 |} = Raised ValueError
  /\ __str__ Examples.narrow_host {| frame := Examples.broken_frame; _depth := 0 |}
     = Raised ValueError.
Proof.
  apply (proj2 (block_lookup_exception Examples.narrow_host
                  {| frame := Examples.broken_frame; _depth := 0 |} ValueError eq_refl)).
  reflexivity.
Defined.

End ArgumentFailures.

(** ** More on the recovered name *)
Section OffsetResolution.

Import FrameColorizer.

(** [rsplit] cuts at the last blank. *)
Lemma rpartition_last (sep : ascii) (a b : string) :
  Spec.has_char sep b = false ->
  Py.rpartition (a ++ String sep b) sep = Some (a, b).
Proof.
  intros Hb. induction a as [|c a IH]; cbn [append Py.rpartition].
  - now rewrite (rpartition_absent _ _ Hb), Ascii.eqb_refl.
  - now rewrite IH.
Qed.

Lemma search_absent (sub s : string) :
  Spec.before sub s = None -> Py.search s sub 0 = None.
Proof.
  induction s as [|c s IH]; cbn [Spec.before Py.search].
  - now destruct (Py.startswith "" sub).
  - destruct (Py.startswith (String c s) sub); [discriminate|].
    destruct (Spec.before sub s); [discriminate|].
    intros _. now rewrite IH.
Qed.

Lemma substring_prefix (a b : string) : substring 0 (String.length a) (a ++ b) = a.
Proof.
  induction a as [|c a IH]; simpl; [now destruct b | now rewrite IH].
Qed.

(** Without the marker [find] answers [-1], which as the end of a slice
    is the position of the last character. *)
Lemma slice_to_find_absent (sub body : string) (c : ascii) :
  Spec.before sub (body ++ String c "") = None ->
  Py.slice_to (body ++ String c "") (Py.find (body ++ String c "") sub 0) = body.
Proof.
  intros H. unfold Py.find. cbn [Z.ltb Z.compare Z.to_nat].
  rewrite (search_absent _ _ H). unfold Py.slice_to.
  change (-1 <? 0) with true. cbv iota. rewrite len_app.
  change (Py.len (String c "")) with 1.
  replace (Z.max 0 (-1 + (Py.len body + 1))) with (Py.len body)
    by (pose proof (len_nonneg body); lia).
  unfold Py.len. rewrite Nat2Z.id. apply substring_prefix.
Qed.

(** X11: when the trimmed text before "in section" ends with a blank and
    a decimal number, resolution renders the text before that last blank,
    a blank and the number in hexadecimal, between the bright-blue marker
    and the reset. *)
Theorem resolved_offset_in_hexadecimal
  (h : gdb.Host) (self : t) (pc offset : Z) (symbol cut name digits : string) :
  FrameDecorator.function (frame self) = gdb.FuncAddr pc ->
  gdb.execute h ("info symbol 0x" ++ Py.fmt_016x pc) = symbol ->
  Spec.before "in section" symbol = Some cut ->
  Py.strip cut = name ++ " " ++ digits ->
  Spec.has_char " " digits = false ->
  Py.int digits = Some offset ->
  function h self =
  String ESC "[1;34m" ++ name ++ " " ++ Py.hex offset ++ String ESC "[0m".
Proof.
  intros Hf Hsym Hcut Hname Hblank Hint. unfold function. rewrite Hf, Hsym.
  rewrite (slice_to_find_before _ _ _ Hcut), Hname.
  unfold Py.rsplit1. change (name ++ " " ++ digits) with (name ++ String " " digits).
  rewrite (rpartition_last _ _ _ Hblank). cbn [List.length Nat.eqb nth].
  now rewrite Hint.
Qed.

Lemma resolved_offset_in_hexadecimal_witness :
  function (Examples.symbol_host ("raise + 272 in section .text of /usr/lib/libc.so.6" ++ NL))
    {| frame := Examples.address_frame; _depth := 0 |}
  = String ESC "[1;34mraise + 0x110" ++ String ESC "[0m".
Proof.
  apply (resolved_offset_in_hexadecimal
           (Examples.symbol_host ("raise + 272 in section .text of /usr/lib/libc.so.6" ++ NL))
           {| frame := Examples.address_frame; _depth := 0 |}
           4194304 272
           ("raise + 272 in section .text of /usr/lib/libc.so.6" ++ NL)
           "raise + 272 " "raise +" "272");
    reflexivity.
Defined.

(** X12: when what follows the last blank of the trimmed text is no
    decimal number, resolution does not fail: it returns the whole
    trimmed text, without offset and without colour. *)
Theorem resolved_unparsable_offset
  (h : gdb.Host) (self : t) (pc : Z) (symbol cut name tail : string) :
  FrameDecorator.function (frame self) = gdb.FuncAddr pc ->
  gdb.execute h ("info symbol 0x" ++ Py.fmt_016x pc) = symbol ->
  Spec.before "in section" symbol = Some cut ->
  Py.strip cut = name ++ " " ++ tail ->
  Spec.has_char " " tail = false ->
  Py.int tail = None ->
  function h self = name ++ " " ++ tail.
Proof.
  intros Hf Hsym Hcut Hname Hblank Hint. unfold function. rewrite Hf, Hsym.
  rewrite (slice_to_find_before _ _ _ Hcut), Hname.
  unfold Py.rsplit1. change (name ++ " " ++ tail) with (name ++ String " " tail).
  rewrite (rpartition_last _ _ _ Hblank). cbn [List.length Nat.eqb nth].
  now rewrite Hint.
Qed.

Lemma resolved_unparsable_offset_witness :
  function (Examples.symbol_host "operator new(unsigned long) in section .text of /usr/lib/libstdc++.so.6")
    {| frame := Examples.address_frame; _depth := 0 |}
  = "operator new(unsigned long)".
Proof.
  apply (resolved_unparsable_offset
           (Examples.symbol_host "operator new(unsigned long) in section .text of /usr/lib/libstdc++.so.6")
           {| frame := Examples.address_frame; _depth := 0 |}
           4194304
           "operator new(unsigned long) in section .text of /usr/lib/libstdc++.so.6"
           "operator new(unsigned long) " "operator new(unsigned" "long)");
    reflexivity.
Defined.

(** X13: when the nearest-symbol text holds no "in section", the cut is
    made before its last character, whatever that is: a final line feed
    is dropped, and so is the last letter of a text that has none.  With
    no blank left after trimming, the result is that shortened text. *)
Theorem resolved_without_section_marker
  (h : gdb.Host) (self : t) (pc : Z) (body : string) (last : ascii) :
  FrameDecorator.function (frame self) = gdb.FuncAddr pc ->
  gdb.execute h ("info symbol 0x" ++ Py.fmt_016x pc) = body ++ String last "" ->
  Spec.before "in section" (body ++ String last "") = None ->
  Spec.has_char " " (Py.strip body) = false ->
  function h self = Py.strip body.
Proof.
  intros Hf Hsym Hnone Hblank. unfold function. rewrite Hf, Hsym.
  rewrite (slice_to_find_absent _ _ _ Hnone).
  unfold Py.rsplit1. now rewrite (rpartition_absent _ _ Hblank).
Qed.

Lemma resolved_without_section_marker_witness :
  function (Examples.symbol_host ("_start" ++ NL))
    {| frame := Examples.address_frame; _depth := 0 |} = "_start"
  /\ function (Examples.symbol_host "_start")
       {| frame := Examples.address_frame; _depth := 0 |} = "_star".
Proof.
  split.
  - apply (resolved_without_section_marker (Examples.symbol_host ("_start" ++ NL))
             {| frame := Examples.address_frame; _depth := 0 |} 4194304 "_start" LF);
      reflexivity.
  - apply (resolved_without_section_marker (Examples.symbol_host "_start")
             {| frame := Examples.address_frame; _depth := 0 |} 4194304 "_star" "t");
      reflexivity.
Defined.

End OffsetResolution.

(** ** More on printing the stack *)
Section Passes.

Import FrameColorizer.


(** X14: a pass over a stack of any size whose frames all render prints
    one block, the renderings at the depths 0, 1, ... joined by line feeds
    and ended by one, and raises StopIteration with the generator used
    up; for an empty stack the block is a lone line feed.  Every later
    pass adds one more line feed.  No pass ever hands a frame back to
    gdb. *)
Theorem stack_printed_in_one_block
  (h : gdb.Host) (frames : list gdb.Frame) (texts : list string) (stdout : string) :
  Spec.rendered h 0 frames texts ->
  let used_up :=
    {| FilterProxy.frames := [];
       FilterProxy.ix := Z.of_nat (List.length frames) |} in
  FilterProxy.next h (FilterProxy.__iter__ (ColourFilter.filter frames)) stdout
  = (Raised StopIteration, used_up, stdout ++ Py.join NL texts ++ NL)
  /\ (forall later : string,
        FilterProxy.next h (FilterProxy.__iter__ used_up) later
        = (Raised StopIteration, used_up, later ++ NL))
  /\ (forall (self : FilterProxy.t) (out : string) (frame : gdb.Frame),
        fst (fst (FilterProxy.next h self out)) <> Returned frame).
Proof.
  intros Hall used_up. split; [|split].
  - unfold FilterProxy.next, FilterProxy.unroll_stack.
    cbn [FilterProxy.__iter__ ColourFilter.filter FilterProxy.init
         FilterProxy.frames FilterProxy.ix].
    rewrite (drain_rendered h frames 0 texts [] Hall). reflexivity.
  - intros later. apply next_exhausted.
  - intros self out frame. unfold FilterProxy.next, FilterProxy.unroll_stack.
    destruct (FilterProxy.drain h (FilterProxy.frames self) (FilterProxy.ix self) [])
      as [[output|e|] self']; discriminate.
Qed.

Lemma stack_printed_in_one_block_witness :
  (exists r0 r1 r2 : string,
      r0 = String ESC "[1;37m#0  " ++ String ESC "[0m " ++ String ESC "[1;34mmain"
             ++ String ESC "[0m " ++ String ESC "[1;37m()" ++ String ESC "[0m"
             ++ NL ++ "     at " ++ String ESC "[0;36mmain.c" ++ String ESC "[0m"
             ++ String ESC "[0;35m:3" ++ String ESC "[0m"
      /\ FilterProxy.next Examples.narrow_host
           (FilterProxy.__iter__
              (ColourFilter.filter
                 [Examples.main_frame; Examples.long_name_frame; Examples.pretty_frame]))
           EmptyString
         = (Raised StopIteration,
            {| FilterProxy.frames := []; FilterProxy.ix := 3 |},
            EmptyString ++ Py.join NL [r0; r1; r2] ++ NL)
      /\ (forall later : string,
            FilterProxy.next Examples.narrow_host
              (FilterProxy.__iter__ {| FilterProxy.frames := []; FilterProxy.ix := 3 |})
              later
            = (Raised StopIteration,
               {| FilterProxy.frames := []; FilterProxy.ix := 3 |}, later ++ NL)))
  /\ FilterProxy.next Examples.narrow_host
       (FilterProxy.__iter__ (ColourFilter.filter [])) EmptyString
     = (Raised StopIteration,
        {| FilterProxy.frames := []; FilterProxy.ix := 0 |}, NL).
Proof.
  split.
  - do 3 eexists. split; [reflexivity|].
    refine (let H := stack_printed_in_one_block Examples.narrow_host
                       [Examples.main_frame; Examples.long_name_frame; Examples.pretty_frame]
                       [_; _; _] EmptyString _ in
            conj (proj1 H) (proj1 (proj2 H))).
    repeat split; vm_compute; reflexivity.
  - apply (stack_printed_in_one_block Examples.narrow_host [] [] EmptyString). exact I.
Defined.



End Passes.

(** ** The text under the colours *)
Section PlainText.

Import FrameColorizer.

(** The assembled line ends with a reset sequence, so all its markers
    are closed. *)
Lemma parts_closed (h : gdb.Host) (self : t) (args : string) :
  Spec.escapes_closed (parts h self args) = true.
Proof.
  unfold parts, part3, line, filename.
  destruct (FrameDecorator.line (frame self)) as [v|]; [destruct (v =? 0)|].
  - rewrite append_nil_r, <- !append_assoc. now apply escapes_closed_app.
  - rewrite <- !append_assoc. now apply escapes_closed_app.
  - rewrite append_nil_r, <- !append_assoc. now apply escapes_closed_app.
Qed.

(** X16: for a frame with a function name, when the name, the arguments
    and the file name hold no marker ESC, the assembled line without its
    colour sequences reads
    "#<depth> [ 0x<address> in ]<function> (<args>) at <file>[:<line>]",
    and [length] measures the assembled line at the length of that
    text. *)
Theorem assembled_line_without_colours
  (h : gdb.Host) (self : t) (name args : string) :
  FrameDecorator.function (frame self) = gdb.FuncName name ->
  Spec.has_char ESC name = false ->
  Spec.has_char ESC args = false ->
  Spec.has_char ESC (Py.fmt_s (FrameDecorator.filename (frame self))) = false ->
  let plain :=
    "#" ++ Py.fmt_ljust3_d (_depth self)
      ++ (if gdb.print_address h
          then "  0x" ++ Py.fmt_016x (FrameDecorator.address (frame self)) ++ " in "
          else " ")
      ++ name ++ " (" ++ args ++ ") at " ++ Spec.plain_location self in
  Spec.visible false (parts h self args) = plain
  /\ length (parts h self args) = Returned (Py.len plain).
Proof.
  intros Hf Hname Hargs Hfile plain.
  assert (Hvis : Spec.visible false (parts h self args) = plain).
  { pose proof (within_absent _ _ ESC (within_fmt_ljust3_d (_depth self)) eq_refl) as Hd.
    pose proof (within_absent _ _ ESC
                  (within_fmt_016x (FrameDecorator.address (frame self))) eq_refl) as Ha.
    assert (Hl : forall v, Spec.has_char ESC (Py.fmt_d v) = false)
      by (intros v; apply (within_absent _ _ ESC (within_fmt_d v) eq_refl)).
    unfold plain, Spec.plain_location, parts, part1, part2, part3, function, depth,
      address, filename, line.
    rewrite Hf.
    destruct (gdb.print_address h);
      (destruct (FrameDecorator.line (frame self)) as [v|]; [destruct (v =? 0)|]);
      rewrite !append_assoc;
      cbn -[Py.fmt_ljust3_d Py.fmt_016x Py.fmt_d Py.fmt_s];
      rewrite (visible_plain _ _ Hd);
      cbn -[Py.fmt_ljust3_d Py.fmt_016x Py.fmt_d Py.fmt_s];
      rewrite ?(visible_plain _ _ Ha);
      cbn -[Py.fmt_ljust3_d Py.fmt_016x Py.fmt_d Py.fmt_s];
      rewrite (visible_plain _ _ Hname);
      cbn -[Py.fmt_ljust3_d Py.fmt_016x Py.fmt_d Py.fmt_s];
      rewrite (visible_plain _ _ Hargs);
      cbn -[Py.fmt_ljust3_d Py.fmt_016x Py.fmt_d Py.fmt_s];
      rewrite (visible_plain _ _ Hfile);
      cbn -[Py.fmt_ljust3_d Py.fmt_016x Py.fmt_d Py.fmt_s];
      rewrite ?(visible_plain _ _ (Hl _));
      cbn -[Py.fmt_ljust3_d Py.fmt_016x Py.fmt_d Py.fmt_s];
      rewrite ?append_nil_r; reflexivity. }
  split; [assumption|].
  rewrite (length_closed _ (parts_closed h self args)). now rewrite Hvis.
Qed.

Lemma assembled_line_without_colours_witness :
  Spec.visible false
    (parts Examples.unlimited_host {| frame := Examples.main_frame; _depth := 0 |}
       EmptyString)
  = "#0   main () at main.c:3"
  /\ length
       (parts Examples.unlimited_host {| frame := Examples.main_frame; _depth := 0 |}
          EmptyString)
     = Returned 24.
Proof.
  apply (assembled_line_without_colours Examples.unlimited_host
           {| frame := Examples.main_frame; _depth := 0 |} "main" EmptyString);
    reflexivity.
Defined.

End PlainText.
